(** * TaskMaster: the task list contract of the React Native client

    A shallow embedding of the client screens of TaskMaster
    ([frontend/app/index.tsx], [add-task.tsx], [analytics.tsx]) and of the
    task service they call over HTTP.

    Conventions of the embedding:
    - a JavaScript string is a [string], one character per UTF-16 code unit,
      for code units below 256;
    - a timestamp ([due_date], [created_at], [updated_at]) is the integer
      that [new Date(s).getTime()] yields for the ISO-8601 string [s] the
      JSON holds; an absent, [null] or empty [due_date] is [None];
    - the union-of-literals fields of [Task] are inductive types, with the
      string each literal denotes given by a [_toString] function;
    - locale collation ([localeCompare]) and the calendar functions of
      date-fns depend on the device and are taken as interfaces. *)

From Stdlib Require Import ZArith Ascii String Sorted.
From Stdlib Require OrderedTypeEx.
From stdpp Require Import base decidable option list sorting strings pretty gmap.

Local Open Scope string_scope.
Local Open Scope Z_scope.
Local Open Scope list_scope.

(** ** JavaScript built-ins used by the screens *)

Module JS.

(** [Boolean(s)] for a string: only the empty string is falsy. *)
Definition truthy (s : string) : bool :=
  match s with
  | EmptyString => false
  | String _ _ => true
  end.

(** ECMAScript [WhiteSpace] and [LineTerminator] code units below 256:
    TAB, LF, VT, FF, CR, SP and NBSP. *)
Definition isWhiteSpace (c : ascii) : bool :=
  let n := N_of_ascii c in
  ((9 <=? n) && (n <=? 13) || (n =? 32) || (n =? 160))%N.

Fixpoint trimStart (s : string) : string :=
  match s with
  | EmptyString => EmptyString
  | String c s' => if isWhiteSpace c then trimStart s' else s
  end.

Fixpoint trimEnd (s : string) : string :=
  match s with
  | EmptyString => EmptyString
  | String c s' =>
      match trimEnd s' with
      | EmptyString => if isWhiteSpace c then EmptyString else String c EmptyString
      | r => String c r
      end
  end.

(** [String.prototype.trim] *)
Definition trim (s : string) : string := trimEnd (trimStart s).

(** Lower-casing of one code unit below 256: A-Z, and the Latin-1 capitals
    U+00C0-U+00DE except the multiplication sign U+00D7, move up by 32. *)
Definition toLowerCaseUnit (c : ascii) : ascii :=
  let n := N_of_ascii c in
  if ((65 <=? n) && (n <=? 90)
      || (192 <=? n) && (n <=? 222) && negb (n =? 215))%N
  then ascii_of_N (n + 32)
  else c.

(** [String.prototype.toLowerCase] *)
Fixpoint toLowerCase (s : string) : string :=
  match s with
  | EmptyString => EmptyString
  | String c s' => String (toLowerCaseUnit c) (toLowerCase s')
  end.

(** [s.includes(q)]: [q] occurs in [s] as a contiguous substring. *)
Fixpoint includes (s q : string) : bool :=
  String.prefix q s ||
  match s with
  | EmptyString => false
  | String _ s' => includes s' q
  end.

(** [Array.prototype.sort(cmp)].  ECMAScript requires the sort to be
    stable and, for a consistent comparator, to leave [cmp a b <= 0] for
    every [a] placed before [b]; all such sorts return the same array.
    The embedding is the stable insertion sort. *)
Section Sort.
Context {A : Type} (cmp : A -> A -> Z).

Fixpoint insert (x : A) (l : list A) : list A :=
  match l with
  | [] => [x]
  | y :: l' => if cmp x y <=? 0 then x :: l else y :: insert x l'
  end.

Definition sort (l : list A) : list A := foldr insert [] l.
End Sort.

End JS.

(** ** The Task entity ([interface Task]) *)

Inductive Priority := low | medium | high.
Inductive Category := work | personal | study | other.
Inductive Status := pending | completed.

Definition Priority_toString (p : Priority) : string :=
  match p with low => "low" | medium => "medium" | high => "high" end.

Definition Category_toString (c : Category) : string :=
  match c with
  | work => "work" | personal => "personal" | study => "study" | other => "other"
  end.

Definition Status_toString (s : Status) : string :=
  match s with pending => "pending" | completed => "completed" end.

Record Task := mkTask {
  id : string;
  title : string;
  description : option string;
  due_date : option Z;
  priority : Priority;
  category : Category;
  status : Status;
  created_at : Z;
  updated_at : Z
}.

(** Device-dependent string collation: [a.localeCompare(b)]. *)
Class Collation := localeCompare : string -> string -> Z.

(** ** The list screen ([TaskListScreen] in index.tsx): filtering and sorting *)

Section FilterAndSort.
Context `{!Collation}.

(** [const priorityOrder = { high: 3, medium: 2, low: 1 }] *)
Definition priorityOrder (p : Priority) : Z :=
  match p with high => 3 | medium => 2 | low => 1 end.

(** The comparator handed to [filtered.sort], a [switch] on [sortBy]. *)
Definition compareTasks (sortBy : string) (a b : Task) : Z :=
  if decide (sortBy = "title") then localeCompare (title a) (title b)
  else if decide (sortBy = "due_date") then
    match due_date a, due_date b with
    | None, None => 0
    | None, Some _ => 1
    | Some _, None => -1
    | Some da, Some db => da - db
    end
  else if decide (sortBy = "priority") then
    priorityOrder (priority b) - priorityOrder (priority a)
  else created_at b - created_at a.

(** The predicate of the search filter. *)
Definition matchesSearch (searchQuery : string) (task : Task) : bool :=
  JS.includes (JS.toLowerCase (title task)) (JS.toLowerCase searchQuery)
  || match description task with
     | Some d =>
         JS.truthy d
         && JS.includes (JS.toLowerCase d) (JS.toLowerCase searchQuery)
     | None => false
     end.

(** The body of the filter-and-sort effect: the value it passes to
    [setFilteredTasks]. *)
Definition filterAndSort
    (tasks : list Task)
    (searchQuery selectedCategory selectedPriority selectedStatus sortBy : string)
    : list Task :=
  let filtered := tasks in
  let filtered :=
    if JS.truthy searchQuery
    then filter (fun task => Is_true (matchesSearch searchQuery task)) filtered
    else filtered in
  let filtered :=
    if decide (selectedCategory <> "all")
    then filter (fun task => Category_toString (category task) = selectedCategory) filtered
    else filtered in
  let filtered :=
    if decide (selectedPriority <> "all")
    then filter (fun task => Priority_toString (priority task) = selectedPriority) filtered
    else filtered in
  let filtered :=
    if decide (selectedStatus <> "all")
    then filter (fun task => Status_toString (status task) = selectedStatus) filtered
    else filtered in
  JS.sort (compareTasks sortBy) filtered.

End FilterAndSort.

(** ** Due dates on the list screen ([getDueDateInfo], [getTaskStats]) *)

(** The calendar functions of date-fns.  Those that read the device clock
    ([isToday], [isTomorrow]) take the current instant as first argument. *)
Class DateFns := {
  isToday : Z -> Z -> bool;
  isTomorrow : Z -> Z -> bool;
  differenceInDays : Z -> Z -> Z;
  startOfDay : Z -> Z;
  endOfDay : Z -> Z
}.

(** date-fns [isPast(date)]: [date < Date.now()]. *)
Definition isPast (now date : Z) : bool := date <? now.

#[global] Instance Priority_eq_dec : EqDecision Priority.
Proof. solve_decision. Defined.
#[global] Instance Category_eq_dec : EqDecision Category.
Proof. solve_decision. Defined.
#[global] Instance Status_eq_dec : EqDecision Status.
Proof. solve_decision. Defined.

Record Colors := {
  textSecondary : string;
  accent : string;
  warning : string;
  error : string
}.

(** The entries of [getColors(isDark)] that the due-date badge reads. *)
Definition getColors (isDark : bool) : Colors := {|
  textSecondary := if isDark then "#B0B0B0" else "#757575";
  accent := "#6B73FF";
  warning := "#F59E0B";
  error := "#EF4444"
|}.

Record DueDateInfo := {
  text : string;
  color : string;
  urgent : bool
}.

Record TaskStats := {
  total : Z;
  completed_count : Z;
  pending_count : Z;
  overdue : Z
}.

Section DueDates.
Context `{!DateFns}.

(** [getDueDateInfo(due_date)]: [None] is the [null] the badge is hidden
    on. *)
Definition getDueDateInfo (colors : Colors) (now : Z) (due_date : option Z)
    : option DueDateInfo :=
  match due_date with
  | None => None
  | Some dueDate =>
      if isToday now dueDate then
        Some {| text := "Today"; color := warning colors; urgent := true |}
      else if isTomorrow now dueDate then
        Some {| text := "Tomorrow"; color := accent colors; urgent := false |}
      else if isPast now dueDate then
        let days := Z.abs (differenceInDays dueDate now) in
        Some {| text := pretty days +:+ "d overdue";
                color := error colors; urgent := true |}
      else
        let days := differenceInDays dueDate now in
        Some {| text := pretty days +:+ "d left";
                color := textSecondary colors; urgent := false |}
  end.

(** The predicate of the overdue filter of [getTaskStats]. *)
Definition isOverdue (now : Z) (t : Task) : bool :=
  match due_date t with
  | Some d => isPast now d && bool_decide (status t = pending)
  | None => false
  end.

(** [getTaskStats()] *)
Definition getTaskStats (now : Z) (tasks : list Task) : TaskStats :=
  let total := Z.of_nat (length tasks) in
  let completed :=
    Z.of_nat (length (filter (fun t => status t = completed) tasks)) in
  let pending := total - completed in
  let overdue :=
    Z.of_nat (length (filter (fun t => Is_true (isOverdue now t)) tasks)) in
  {| total := total; completed_count := completed;
     pending_count := pending; overdue := overdue |}.

(** ** The analytics screen ([analyzeData] in analytics.tsx)

    The counts that depend on the due date, with the two task totals; the
    weekly and per-category aggregates of [analyzeData] do not read
    [due_date]. *)

Definition isOverdueTask (now : Z) (t : Task) : bool :=
  match due_date t with
  | Some d => bool_decide (status t = pending) && (d <? startOfDay now)
  | None => false
  end.

Definition isTodaysTask (now : Z) (t : Task) : bool :=
  match due_date t with
  | None => false
  | Some taskDate => (startOfDay now <=? taskDate) && (taskDate <=? endOfDay now)
  end.

Record Analytics := {
  totalTasks : Z;
  completedTasks : Z;
  overdueTasks : Z;
  todaysTasks : Z
}.

Definition analyzeData (now : Z) (tasks : list Task) : Analytics := {|
  totalTasks := Z.of_nat (length tasks);
  completedTasks :=
    Z.of_nat (length (filter (fun t => status t = completed) tasks));
  overdueTasks :=
    Z.of_nat (length (filter (fun t => Is_true (isOverdueTask now t)) tasks));
  todaysTasks :=
    Z.of_nat (length (filter (fun t => Is_true (isTodaysTask now t)) tasks))
|}.

End DueDates.

(** ** The HTTP surface the screens call *)

(** The JSON body of [POST /api/tasks]; a key the client leaves out is
    [None]. *)
Module TaskCreate.
Record t := {
  title : string;
  description : option string;
  priority : option Priority;
  category : option Category;
  due_date : option Z
}.
End TaskCreate.

(** The JSON body of [PUT /api/tasks/{id}]. *)
Module TaskUpdate.
Record t := {
  title : option string;
  description : option string;
  due_date : option (option Z);
  priority : option Priority;
  category : option Category;
  status : option Status
}.
End TaskUpdate.

(** The body [{ status: newStatus }]. *)
Definition statusOnly (newStatus : Status) : TaskUpdate.t := {|
  TaskUpdate.title := None;
  TaskUpdate.description := None;
  TaskUpdate.due_date := None;
  TaskUpdate.priority := None;
  TaskUpdate.category := None;
  TaskUpdate.status := Some newStatus |}.

Inductive Request :=
| GET_tasks
| POST_tasks (body : TaskCreate.t)
| PUT_task (id : string) (body : TaskUpdate.t).

Inductive Json :=
| JTask (t : Task)
| JTasks (l : list Task)
| JError (detail : option string).

Record Response := {
  status_code : Z;
  json : Json
}.

(** [response.ok]: the status is in the range 200-299. *)
Definition ok (r : Response) : bool :=
  (200 <=? status_code r) && (status_code r <=? 299).

(** What a screen can do to the world: requests reach the backend (whose
    state is [B]) and are recorded in [sent]; alerts and [router.back()]
    calls are recorded in order. *)
Record Runtime (B : Type) := mkRuntime {
  backend : B;
  sent : list Request;
  alerts : list (string * string);
  navigatedBack : nat
}.
Arguments mkRuntime {B}.
Arguments backend {B}.
Arguments sent {B}.
Arguments alerts {B}.
Arguments navigatedBack {B}.

(** An [async] function of a screen: a state transformer on the runtime. *)
Definition Eff (B A : Type) : Type := Runtime B -> A * Runtime B.

#[global] Instance Eff_ret {B} : MRet (Eff B) := fun A a rt => (a, rt).

#[global] Instance Eff_bind {B} : MBind (Eff B) :=
  fun A A' k m rt => let '(a, rt') := m rt in k a rt'.

(** [Alert.alert(title, message)] *)
Definition Alert_alert {B} (title message : string) : Eff B unit :=
  fun rt => (tt, mkRuntime (backend rt) (sent rt)
                           (alerts rt ++ [(title, message)]) (navigatedBack rt)).

(** [router.back()] *)
Definition router_back {B} : Eff B unit :=
  fun rt => (tt, mkRuntime (backend rt) (sent rt) (alerts rt)
                           (S (navigatedBack rt))).

Section Fetch.
Context {B : Type}.

(** The backend as the client sees it: a request changes the backend state
    and yields a response, or [None] when [fetch] rejects (network error). *)
Context (serve : Request -> B -> option Response * B).

(** [await fetch(...)] *)
Definition fetch (req : Request) : Eff B (option Response) :=
  fun rt =>
    let '(r, b') := serve req (backend rt) in
    (r, mkRuntime b' (sent rt ++ [req]) (alerts rt) (navigatedBack rt)).

End Fetch.

(** ** The actions of the list screen ([TaskListScreen] in index.tsx) *)

Module ListScreen.

(** The [useState] cells of the screen that its actions read or write.
    [filteredTasks] is not a cell of its own here: the filter-and-sort
    effect recomputes it from the others after every change. *)
Record State := mkState {
  tasks : list Task;
  searchQuery : string;
  selectedCategory : string;
  selectedPriority : string;
  selectedStatus : string;
  sortBy : string;
  quickAddText : string;
  loading : bool;
  refreshing : bool
}.

(** The initial values of the cells. *)
Definition initial : State :=
  mkState [] "" "all" "all" "all" "created_at" "" true false.

Definition setTasks (l : list Task) (st : State) : State :=
  mkState l (searchQuery st) (selectedCategory st) (selectedPriority st)
          (selectedStatus st) (sortBy st) (quickAddText st)
          (loading st) (refreshing st).

Definition setQuickAddText (s : string) (st : State) : State :=
  mkState (tasks st) (searchQuery st) (selectedCategory st)
          (selectedPriority st) (selectedStatus st) (sortBy st) s
          (loading st) (refreshing st).

(** [setLoading(false); setRefreshing(false)] *)
Definition settle (st : State) : State :=
  mkState (tasks st) (searchQuery st) (selectedCategory st)
          (selectedPriority st) (selectedStatus st) (sortBy st)
          (quickAddText st) false false.

(** The list the screen displays. *)
Definition filteredTasks `{!Collation} (st : State) : list Task :=
  filterAndSort (tasks st) (searchQuery st) (selectedCategory st)
                (selectedPriority st) (selectedStatus st) (sortBy st).

(** [{ ...t, status: newStatus }] *)
Definition withStatus (t : Task) (newStatus : Status) : Task :=
  mkTask (id t) (title t) (description t) (due_date t) (priority t)
         (category t) newStatus (created_at t) (updated_at t).

Section Actions.
Context {B : Type} (serve : Request -> B -> option Response * B).

(** [fetchTasks()].  The code stores whatever JSON a 2xx reply carries and
    raises no alert; the screen relies on the contract of the API that this
    JSON is an array of tasks.  A 2xx body of another shape has no value in
    the cell [tasks : Task[]]: the model then leaves the cell as it was,
    without an alert, and the properties of a fetch assume the contract. *)
Definition fetchTasks (st : State) : Eff B State :=
  response ← fetch serve GET_tasks;
  st' ← match response with
        | Some response =>
            if ok response then
              match json response with
              | JTasks tasksData => mret (setTasks tasksData st)
              | _ => mret st
              end
            else Alert_alert "Error" "Failed to fetch tasks";; mret st
        | None => Alert_alert "Error" "Network error occurred";; mret st
        end;
  mret (settle st').

(** [quickAddTask()] *)
Definition quickAddTask (st : State) : Eff B State :=
  if negb (JS.truthy (JS.trim (quickAddText st))) then mret st
  else
    response ← fetch serve (POST_tasks {|
      TaskCreate.title := JS.trim (quickAddText st);
      TaskCreate.description := None;
      TaskCreate.priority := Some medium;
      TaskCreate.category := Some personal;
      TaskCreate.due_date := None |});
    match response with
    | Some response =>
        if ok response then fetchTasks (setQuickAddText "" st)
        else Alert_alert "Error" "Failed to create task";; mret st
    | None => Alert_alert "Error" "Network error occurred";; mret st
    end.

(** [toggleTaskStatus(task)] *)
Definition toggleTaskStatus (task : Task) (st : State) : Eff B State :=
  let newStatus :=
    if decide (status task = pending) then completed else pending in
  response ← fetch serve (PUT_task (id task) (statusOnly newStatus));
  match response with
  | Some response =>
      if ok response then
        mret (setTasks
                (map (fun t => if decide (id t = id task)
                               then withStatus t newStatus else t)
                     (tasks st))
                st)
      else Alert_alert "Error" "Failed to update task status";; mret st
  | None => Alert_alert "Error" "Network error occurred";; mret st
  end.

End Actions.
End ListScreen.

(** ** The add-task screen ([AddTaskScreen] in add-task.tsx) *)

Module AddTaskScreen.

Record State := mkState {
  title : string;
  description : string;
  priority : Priority;
  category : Category;
  loading : bool;
  dueDate : option Z;
  hasReminder : bool
}.

Definition initial : State := mkState "" "" medium personal false None false.

Definition setLoading (b : bool) (st : State) : State :=
  mkState (title st) (description st) (priority st) (category st) b
          (dueDate st) (hasReminder st).

Section Actions.
Context {B : Type} (serve : Request -> B -> option Response * B).

(** [createTask()].  The reminder branch only writes to the console. *)
Definition createTask (st : State) : Eff B State :=
  if negb (JS.truthy (JS.trim (title st))) then
    Alert_alert "Validation Error" "Please enter a task title";; mret st
  else
    let st := setLoading true st in
    let taskData := {|
      TaskCreate.title := JS.trim (title st);
      TaskCreate.description := Some (JS.trim (description st));
      TaskCreate.priority := Some (priority st);
      TaskCreate.category := Some (category st);
      TaskCreate.due_date := dueDate st |} in
    response ← fetch serve (POST_tasks taskData);
    match response with
    | Some response =>
        if ok response then router_back
        else
          match json response with
          | JError (Some detail) =>
              Alert_alert "Error"
                (if JS.truthy detail then detail else "Failed to create task")
          | JError None => Alert_alert "Error" "Failed to create task"
          | _ => Alert_alert "Error" "Failed to create task"
          end
    | None => Alert_alert "Error" "Network error occurred"
    end;;
    mret (setLoading false st).

End Actions.
End AddTaskScreen.

(** ** The task service behind the HTTP surface

    The backend is not part of the client sources; its operations are
    modelled from the specification of the Task Service and Task API. *)

Module TaskService.

#[global] Instance ascii_inhabited : Inhabited ascii := populate "t"%char.

(** Identifiers never run out: a fresh one exists for every store. *)
#[global] Instance string_infinite : Infinite string :=
  inj_infinite
    (fun l => String "t" (string_of_list_ascii l))
    (fun s => match s with
              | String _ s' => Some (list_ascii_of_string s')
              | EmptyString => None
              end)
    (fun l => f_equal Some (list_ascii_of_string_of_list_ascii l)).

(** Modelled from the spec: the Task Store, "a persistent collection of
    Task records, keyed by a unique identifier", together with the current
    time the service stamps records with. *)
Record Server := mkServer {
  store : gmap string Task;
  clock : Z
}.

(** Modelled from the spec: the error taxonomy of the service. *)
Inductive Error := ValidationError | NotFoundError.

Inductive Result :=
| Ok (t : Task)
| Err (e : Error).

(** Modelled from the spec: [create(input)], which is not among the client
    sources.  "title (required, trimmed, rejected if empty), optional
    description/due_date, optional priority/category (defaulted if
    absent)"; it "generates a new unique id, sets created_at = updated_at =
    current time, status = pending, persists the record"; on a validation
    failure "no partial writes occur". *)
Definition create (input : TaskCreate.t) (s : Server) : Result * Server :=
  let title := JS.trim (TaskCreate.title input) in
  if decide (title = "") then (Err ValidationError, s)
  else
    let task := {|
      id := fresh (dom (store s));
      title := title;
      description := TaskCreate.description input;
      due_date := TaskCreate.due_date input;
      priority := default medium (TaskCreate.priority input);
      category := default personal (TaskCreate.category input);
      status := pending;
      created_at := clock s;
      updated_at := clock s |} in
    (Ok task, mkServer (<[id task := task]> (store s)) (clock s)).

(** Modelled from the spec: the merge of [update]: a supplied field
    replaces the stored one, an unsupplied field is left untouched, and
    [updated_at] is refreshed. *)
Definition merge (now : Z) (u : TaskUpdate.t) (t : Task) : Task := {|
  id := id t;
  title := default (title t) (TaskUpdate.title u);
  description :=
    match TaskUpdate.description u with
    | Some d => Some d
    | None => description t
    end;
  due_date := default (due_date t) (TaskUpdate.due_date u);
  priority := default (priority t) (TaskUpdate.priority u);
  category := default (category t) (TaskUpdate.category u);
  status := default (status t) (TaskUpdate.status u);
  created_at := created_at t;
  updated_at := now |}.

(** Modelled from the spec: [update(id, partialFields)], which is not among
    the client sources.  It "merges supplied fields into the existing
    record, refreshes updated_at, leaves unsupplied fields untouched",
    "rejects empty-string title if title is among the supplied fields", and
    gives a "not-found error if id absent". *)
Definition update (i : string) (u : TaskUpdate.t) (s : Server)
    : Result * Server :=
  match store s !! i with
  | None => (Err NotFoundError, s)
  | Some t =>
      if decide (TaskUpdate.title u = Some "") then (Err ValidationError, s)
      else
        let t' := merge (clock s) u t in
        (Ok t', mkServer (<[i := t']> (store s)) (clock s))
  end.

(** Modelled from the spec: [list(filters, sort)] as [GET /api/tasks]
    without query parameters asks for it: no filter, and the default order
    "created_at descending". *)
Definition list_tasks (s : Server) : list Task :=
  JS.sort (fun a b => created_at b - created_at a)
          ((map_to_list (store s)).*2).

(** Modelled from the spec: the Task API, which "maps Task Service errors
    to HTTP status codes (validation -> 422, not-found -> 404, success ->
    200/201)".  The transport itself does not fail in this model. *)
Definition respond (success : Z) (r : Result) : Response :=
  match r with
  | Ok t => {| status_code := success; json := JTask t |}
  | Err ValidationError => {| status_code := 422; json := JError None |}
  | Err NotFoundError => {| status_code := 404; json := JError None |}
  end.

Definition serve (req : Request) (s : Server) : option Response * Server :=
  match req with
  | GET_tasks =>
      (Some {| status_code := 200; json := JTasks (list_tasks s) |}, s)
  | POST_tasks body =>
      let '(r, s') := create body s in (Some (respond 201 r), s')
  | PUT_task i body =>
      let '(r, s') := update i body s in (Some (respond 200 r), s')
  end.

End TaskService.

(** Modelled from the spec: the service stamps a record with the "current
    time", which it reads anew for every request; [now] is the instant at
    which the request is served. *)
Definition serveAt (now : Z) (req : Request) (s : TaskService.Server)
    : option Response * TaskService.Server :=
  TaskService.serve req (TaskService.mkServer (TaskService.store s) now).

(** The state of the service after it has served the requests of
    [history], each at its instant, in order. *)
Fixpoint run (history : list (Z * Request)) (s : TaskService.Server)
    : TaskService.Server :=
  match history with
  | [] => s
  | (now, req) :: rest => run rest (serveAt now req s).2
  end.

(** Requests are served in the order of their instants: each instant is
    later than the one before it, and the first later than [start]. *)
Fixpoint chronological (start : Z) (history : list (Z * Request)) : Prop :=
  match history with
  | [] => True
  | (now, _) :: rest => start < now /\ chronological now rest
  end.

(** No stored task is stamped later than the last instant served. *)
Definition stamped (s : TaskService.Server) : Prop :=
  forall i t, TaskService.store s !! i = Some t ->
              updated_at t <= TaskService.clock s.

(** The service as it starts: no task stored. *)
Definition started (start : Z) : TaskService.Server :=
  TaskService.mkServer ∅ start.

(** The body of a create that gives only a title. *)
Definition titleOnly (text : string) : TaskCreate.t := {|
  TaskCreate.title := text;
  TaskCreate.description := None;
  TaskCreate.priority := None;
  TaskCreate.category := None;
  TaskCreate.due_date := None |}.

(** ** Device instances used to evaluate the screens on examples *)

(** Collation by code unit order. *)
Definition codeUnitCollation : Collation :=
  fun a b =>
    match String.compare a b with
    | Lt => -1
    | Eq => 0
    | Gt => 1
    end.

Definition msPerDay : Z := 86400000.

(** The calendar functions on a device whose time zone is UTC. *)
Definition utcDateFns : DateFns := {|
  isToday now date := (date `div` msPerDay) =? (now `div` msPerDay);
  isTomorrow now date := (date `div` msPerDay) =? (now `div` msPerDay) + 1;
  differenceInDays a b := (a - b) `quot` msPerDay;
  startOfDay d := d - d `mod` msPerDay;
  endOfDay d := d - d `mod` msPerDay + (msPerDay - 1)
|}.

(** Example tasks. *)
Definition exampleTask (i t : string) (d : option string) (due : option Z)
    (p : Priority) (c : Category) (s : Status) (at_ : Z) : Task :=
  mkTask i t d due p c s at_ at_.

Definition milk : Task :=
  exampleTask "1" "Buy milk" None None medium personal pending 1000.
Definition report : Task :=
  exampleTask "2" "Quarterly REPORT" (Some "send to Ana") (Some 5000)
              high work pending 2000.
Definition thesis : Task :=
  exampleTask "3" "Thesis" (Some "") (Some 3000) low study completed 3000.
Definition early : Task :=
  exampleTask "4" "A early" None (Some 1000) high work pending 9000.
Definition late : Task :=
  exampleTask "5" "B late" None (Some 2000) low work pending 8000.

(** ** The vocabulary of the specification *)

(** A comparator is consistent when "[a] may precede [b]",
    [cmp a b <= 0], is a total preorder. *)
Class Consistent {A : Type} (cmp : A -> A -> Z) : Prop := {
  cmp_total : forall a b, cmp a b <= 0 \/ cmp b a <= 0;
  cmp_trans : forall a b c, cmp a b <= 0 -> cmp b c <= 0 -> cmp a c <= 0
}.

(** [ordered R l]: whenever [a] stands before [b] in [l], [R a b]. *)
Definition ordered {A : Type} (R : A -> A -> Prop) (l : list A) : Prop :=
  forall i j a b, (i < j)%nat -> l !! i = Some a -> l !! j = Some b -> R a b.

(** The semantic order of priorities: low below medium below high. *)
Definition lowerPriority (p q : Priority) : Prop :=
  match p, q with
  | low, medium | low, high | medium, high => True
  | _, _ => False
  end.

(** The lexical order of the priority literals, for contrast. *)
Definition lexicallyBefore (p q : Priority) : Prop :=
  String.ltb (Priority_toString p) (Priority_toString q) = true.

Inductive Direction := Ascending | Descending.

(** The due-date order of the specification in direction [dir]: a task
    without a due date never stands before one that has a due date, and the
    dated ones follow their timestamps in that direction. *)
Definition dueDateBefore (dir : Direction) (a b : Task) : Prop :=
  match due_date a, due_date b with
  | None, None => True
  | None, Some _ => False
  | Some _, None => True
  | Some da, Some db =>
      match dir with
      | Ascending => da <= db
      | Descending => db <= da
      end
  end.

(** An equality filter is supplied when its selection is not ["all"]; a
    task satisfies the supplied filters when its field equals each one. *)
Definition satisfiesFilters (selectedCategory selectedPriority selectedStatus : string)
    (t : Task) : Prop :=
  (selectedCategory <> "all" -> Category_toString (category t) = selectedCategory)
  /\ (selectedPriority <> "all" -> Priority_toString (priority t) = selectedPriority)
  /\ (selectedStatus <> "all" -> Status_toString (status t) = selectedStatus).

#[global] Instance satisfiesFilters_dec c p s t : Decision (satisfiesFilters c p s t).
Proof. unfold satisfiesFilters. apply _. Defined.

(** [q] occurs in [s] when [s] splits around a copy of [q]. *)
Definition occursIn (q s : string) : Prop :=
  exists pre post, s = pre +:+ q +:+ post.

(** [s] contains [q] case-insensitively. *)
Definition containsIgnoringCase (s q : string) : Prop :=
  occursIn (JS.toLowerCase q) (JS.toLowerCase s).

(** The search of the list screen: the title contains the query, or the
    description is present and contains it. *)
Definition matchesQuery (q : string) (t : Task) : Prop :=
  containsIgnoringCase (title t) q
  \/ exists d, description t = Some d /\ containsIgnoringCase d q.

(** A title is blank when it is empty or holds only white space. *)
Fixpoint blank (s : string) : bool :=
  match s with
  | EmptyString => true
  | String c s' => JS.isWhiteSpace c && blank s'
  end.

(** ** The remaining actions of the list screen (index.tsx) *)

(** The requests on one task.  They reach the backend like the others; the
    [sent] log keeps to the collection requests and the updates. *)
Inductive ItemRequest :=
| GET_task (id : string)
| DELETE_task (id : string).

(** [await fetch(...)] for a request on one task. *)
Definition fetchItem {B : Type}
    (serveItem : ItemRequest -> B -> option Response * B)
    (req : ItemRequest) : Eff B (option Response) :=
  fun rt =>
    let '(r, b') := serveItem req (backend rt) in
    (r, mkRuntime b' (sent rt) (alerts rt) (navigatedBack rt)).

(** The button the user presses in the confirmation of [deleteTask]. *)
Inductive DeleteChoice := CancelButton | DeleteButton.

Module TaskList.

Definition setRefreshing (b : bool) (st : ListScreen.State) : ListScreen.State :=
  ListScreen.mkState
    (ListScreen.tasks st) (ListScreen.searchQuery st)
    (ListScreen.selectedCategory st) (ListScreen.selectedPriority st)
    (ListScreen.selectedStatus st) (ListScreen.sortBy st)
    (ListScreen.quickAddText st) (ListScreen.loading st) b.

Section Actions.
Context {B : Type} (serve : Request -> B -> option Response * B).
Context (serveItem : ItemRequest -> B -> option Response * B).

(** [onRefresh()] *)
Definition onRefresh (st : ListScreen.State) : Eff B ListScreen.State :=
  ListScreen.fetchTasks serve (setRefreshing true st).

(** [deleteTask(taskId)], with the button the user answers the
    confirmation with; only [Delete] has a handler. *)
Definition deleteTask (taskId : string) (choice : DeleteChoice)
    (st : ListScreen.State) : Eff B ListScreen.State :=
  Alert_alert "Delete Task" "Are you sure you want to delete this task?";;
  match choice with
  | CancelButton => mret st
  | DeleteButton =>
      response ← fetchItem serveItem (DELETE_task taskId);
      match response with
      | Some response =>
          if ok response then
            mret (ListScreen.setTasks
                    (filter (fun t => id t <> taskId) (ListScreen.tasks st))
                    st)
          else Alert_alert "Error" "Failed to delete task";; mret st
      | None => Alert_alert "Error" "Network error occurred";; mret st
      end
  end.

End Actions.
End TaskList.

(** ** The theme preference ([loadThemePreference], [toggleTheme]) *)

Module Theme.

(** [AsyncStorage]: the stored items, and whether its calls resolve
    ([available]) or reject. *)
Record AsyncStorage := mkStorage {
  items : gmap string string;
  available : bool
}.

(** [await AsyncStorage.getItem(key)]; [None] when the call rejects. *)
Definition getItem (key : string) (s : AsyncStorage) : option (option string) :=
  if available s then Some (items s !! key) else None.

(** [await AsyncStorage.setItem(key, value)]; [None] when the call
    rejects. *)
Definition setItem (key value : string) (s : AsyncStorage) : option AsyncStorage :=
  if available s then Some (mkStorage (<[key := value]> (items s)) true)
  else None.

(** [loadThemePreference()]: the value of [isDarkMode] afterwards. *)
Definition loadThemePreference (isDarkMode : bool) (s : AsyncStorage) : bool :=
  match getItem "theme" s with
  | Some theme => if decide (theme = Some "dark") then true else isDarkMode
  | None => isDarkMode
  end.

(** [toggleTheme()]: the new [isDarkMode] and the storage afterwards. *)
Definition toggleTheme (isDarkMode : bool) (s : AsyncStorage)
    : bool * AsyncStorage :=
  let newTheme := negb isDarkMode in
  (newTheme,
   match setItem "theme" (if newTheme then "dark" else "light") s with
   | Some s' => s'
   | None => s
   end).

End Theme.

(** ** The edit screen ([EditTaskScreen] in edit-task.tsx) *)

Module EditTaskScreen.

Record State := mkState {
  task : option Task;
  title : string;
  description : string;
  priority : Priority;
  category : Category;
  status : Status;
  loading : bool;
  saving : bool
}.

Definition initial : State :=
  mkState None "" "" medium personal pending true false.

Definition setLoading (b : bool) (st : State) : State :=
  mkState (task st) (title st) (description st) (priority st) (category st)
          (status st) b (saving st).

Definition setSaving (b : bool) (st : State) : State :=
  mkState (task st) (title st) (description st) (priority st) (category st)
          (status st) (loading st) b.

(** The six setters [fetchTask] calls on the task it received;
    [taskData.description || ''] is the description when it is present and
    not empty. *)
Definition populate (taskData : Task) (st : State) : State :=
  match taskData with
  | mkTask _ taskTitle taskDescription _ taskPriority taskCategory taskStatus _ _ =>
      mkState (Some taskData) taskTitle
              (match taskDescription with
               | Some d => if JS.truthy d then d else ""
               | None => ""
               end)
              taskPriority taskCategory taskStatus (loading st) (saving st)
  end.

Section Actions.
Context {B : Type} (serve : Request -> B -> option Response * B).
Context (serveItem : ItemRequest -> B -> option Response * B).

(** [fetchTask()] for the route parameter [id].  The code runs the six
    setters on whatever JSON a 2xx reply carries, with no alert and no
    [router.back()]; the screen relies on the contract of the API that this
    JSON is a task.  A 2xx body of another shape has no value in the typed
    cells: the model then leaves the cells as they were, and the properties
    of a load assume the contract. *)
Definition fetchTask (i : string) (st : State) : Eff B State :=
  response ← fetchItem serveItem (GET_task i);
  st' ← match response with
        | Some response =>
            if ok response then
              match json response with
              | JTask taskData => mret (populate taskData st)
              | _ => mret st
              end
            else Alert_alert "Error" "Task not found";; router_back;; mret st
        | None => Alert_alert "Error" "Failed to load task";; router_back;; mret st
        end;
  mret (setLoading false st').

(** The body of the [PUT] that [updateTask] sends. *)
Definition updateBody (st : State) : TaskUpdate.t := {|
  TaskUpdate.title := Some (JS.trim (title st));
  TaskUpdate.description := Some (JS.trim (description st));
  TaskUpdate.due_date := None;
  TaskUpdate.priority := Some (priority st);
  TaskUpdate.category := Some (category st);
  TaskUpdate.status := Some (status st) |}.

(** [updateTask()] for the route parameter [id]. *)
Definition updateTask (i : string) (st : State) : Eff B State :=
  if negb (JS.truthy (JS.trim (title st))) then
    Alert_alert "Validation Error" "Please enter a task title";; mret st
  else
    let st := setSaving true st in
    response ← fetch serve (PUT_task i (updateBody st));
    match response with
    | Some response =>
        if ok response then router_back
        else
          match json response with
          | JError (Some detail) =>
              Alert_alert "Error"
                (if JS.truthy detail then detail else "Failed to update task")
          | _ => Alert_alert "Error" "Failed to update task"
          end
    | None => Alert_alert "Error" "Network error occurred"
    end;;
    mret (setSaving false st).

End Actions.
End EditTaskScreen.

(** ** The aggregates of the analytics screen (analytics.tsx) *)

(** [m[key] = (m[key] || 0) + 1] on a [Record<string, number>]. *)
Definition countInto (key : string) (m : gmap string Z) : gmap string Z :=
  <[key := default 0 (m !! key) + 1]> m.

(** The [categoryBreakdown] of [analyzeData]. *)
Definition categoryBreakdown (tasks : list Task) : gmap string Z :=
  foldl (fun m task => countInto (Category_toString (category task)) m) ∅ tasks.

(** The [priorityBreakdown] of [analyzeData]. *)
Definition priorityBreakdown (tasks : list Task) : gmap string Z :=
  foldl (fun m task => countInto (Priority_toString (priority task)) m) ∅ tasks.

(** [Object.values(breakdown).reduce((a, b) => a + b, 0)], the [total] of
    [renderCategoryChart]. *)
Definition chartTotal (breakdown : gmap string Z) : Z :=
  map_fold (fun _ count acc => acc + count) 0 breakdown.

(** One entry of [weeklyProgress]. *)
Module DayProgress.
Record t := {
  day : string;
  created : Z;
  completed : Z
}.
End DayProgress.

(** The calendar functions the weekly aggregates add to [DateFns]:
    [daysAgo now i] is the instant [day.setDate(day.getDate() - i)] leaves
    in a copy of [now], [formatEEE] is [format(day, 'EEE')], and
    [isThisWeek] takes the current instant first. *)
Class WeekFns := {
  daysAgo : Z -> Z -> Z;
  formatEEE : Z -> string;
  isThisWeek : Z -> Z -> bool
}.

Section Weekly.
Context `{!DateFns, !WeekFns}.

(** The [thisWeekTasks] of [analyzeData]; [created_at] is never falsy in
    a [Task]. *)
Definition thisWeekTasks (now : Z) (tasks : list Task) : Z :=
  Z.of_nat (length (filter (fun t => Is_true (isThisWeek now (created_at t))) tasks)).

(** The entry of [weeklyProgress] for the day [i] days before [now]. *)
Definition dayProgress (now : Z) (tasks : list Task) (i : Z) : DayProgress.t :=
  let day := daysAgo now i in
  let dayStart := startOfDay day in
  let dayEnd := endOfDay day in
  let created :=
    Z.of_nat (length (filter
      (fun t => dayStart <= created_at t /\ created_at t <= dayEnd) tasks)) in
  let completed :=
    Z.of_nat (length (filter
      (fun t => status t = completed
                /\ dayStart <= updated_at t /\ updated_at t <= dayEnd) tasks)) in
  {| DayProgress.day := formatEEE day;
     DayProgress.created := created;
     DayProgress.completed := completed |}.

(** The [weeklyProgress] of [analyzeData]: the loop runs [i] from 6 down
    to 0. *)
Definition weeklyProgress (now : Z) (tasks : list Task) : list DayProgress.t :=
  map (dayProgress now tasks) [6; 5; 4; 3; 2; 1; 0].

End Weekly.

(** The [maxValue] of [renderWeeklyChart]:
    [Math.max(...weeklyProgress.map(d => Math.max(d.created, d.completed)), 1)]. *)
Definition maxValue (weeklyProgress : list DayProgress.t) : Z :=
  foldr Z.max 1
    (map (fun d => Z.max (DayProgress.created d) (DayProgress.completed d))
         weeklyProgress).

(** The week functions on a device whose time zone is UTC, with the week
    starting on Sunday (1 January 1970 was a Thursday). *)
Definition utcWeekFns : WeekFns := {|
  daysAgo now i := now - i * msPerDay;
  formatEEE d :=
    nth (Z.to_nat ((d `div` msPerDay + 4) `mod` 7))
        ["Sun"; "Mon"; "Tue"; "Wed"; "Thu"; "Fri"; "Sat"] "";
  isThisWeek now d :=
    ((d `div` msPerDay + 4) `div` 7) =? ((now `div` msPerDay + 4) `div` 7)
|}.

(** A task passes the filter stage when it matches the query, if one is
    typed, and satisfies the supplied equality filters. *)
Definition passes (q selectedCategory selectedPriority selectedStatus : string)
    (t : Task) : Prop :=
  (q <> "" -> Is_true (matchesSearch q t))
  /\ satisfiesFilters selectedCategory selectedPriority selectedStatus t.

#[global] Instance passes_dec q c p s t : Decision (passes q c p s t).
Proof. unfold passes. apply _. Defined.

(** A backend that accepts every request, to evaluate the actions on
    examples. *)
Definition acceptAll (req : Request) (b : unit) : option Response * unit :=
  (Some {| status_code := 200; json := JError None |}, b).

(** A backend that refuses every request with status 500. *)
Definition refuseAll (req : Request) (b : unit) : option Response * unit :=
  (Some {| status_code := 500; json := JError (Some "Server down") |}, b).

(** The [newStatus] of [toggleTaskStatus(task)]. *)
Definition toggled (task : Task) : Status :=
  if decide (status task = pending) then completed else pending.

(** A backend that answers every request on one task with the task [t],
    and one that knows no task. *)
Definition itemFound (t : Task) (req : ItemRequest) (b : unit)
    : option Response * unit :=
  (Some {| status_code := 200; json := JTask t |}, b).

Definition itemMissing (req : ItemRequest) (b : unit) : option Response * unit :=
  (Some {| status_code := 404; json := JError (Some "Task not found") |}, b).

Definition idle : Runtime unit := mkRuntime tt [] [] 0.

(** * Properties *)

(** ** [Array.prototype.sort] *)

Section SortFacts.
Context {A : Type} (cmp : A -> A -> Z).

Lemma insert_Permutation (x : A) (l : list A) : JS.insert cmp x l ≡ₚ x :: l.
Proof.
  induction l as [|y l IH]; simpl; [done|].
  destruct (cmp x y <=? 0); [done|].
  rewrite IH. apply Permutation_swap.
Qed.

Lemma sort_Permutation (l : list A) : JS.sort cmp l ≡ₚ l.
Proof.
  induction l as [|x l IH]; simpl; [done|].
  fold (JS.sort cmp l). by rewrite insert_Permutation, IH.
Qed.

Lemma elem_of_sort (x : A) (l : list A) : x ∈ JS.sort cmp l <-> x ∈ l.
Proof. by rewrite sort_Permutation. Qed.

Context `{!Consistent cmp}.

Lemma insert_StronglySorted (x : A) (l : list A) :
  StronglySorted (fun a b => cmp a b <= 0) l ->
  StronglySorted (fun a b => cmp a b <= 0) (JS.insert cmp x l).
Proof.
  induction 1 as [|y l Hl IH Hy]; simpl.
  - repeat constructor.
  - destruct (Z.leb_spec (cmp x y) 0) as [Hxy|Hxy].
    + constructor; [by constructor|].
      constructor; [done|].
      eapply Forall_impl; [exact Hy|]. intros z Hz. by eapply cmp_trans.
    + constructor; [done|].
      rewrite insert_Permutation. constructor; [|done].
      destruct (cmp_total x y); [lia|done].
Qed.

Lemma sort_StronglySorted (l : list A) :
  StronglySorted (fun a b => cmp a b <= 0) (JS.sort cmp l).
Proof.
  induction l as [|x l IH]; simpl; [constructor|].
  by apply insert_StronglySorted.
Qed.

End SortFacts.

Lemma StronglySorted_ordered {A : Type} (R : A -> A -> Prop) (l : list A) :
  StronglySorted R l -> ordered R l.
Proof.
  induction 1 as [|x l Hl IH Hx]; intros i j a b Hij Hi Hj.
  - by rewrite lookup_nil in Hi.
  - destruct j as [|j]; [lia|]. simpl in Hj.
    destruct i as [|i]; simpl in Hi.
    + injection Hi as <-. rewrite Forall_forall in Hx.
      apply Hx. by eapply list_elem_of_lookup_2.
    + apply (IH i j); [lia|done..].
Qed.

Lemma sort_ordered {A : Type} (cmp : A -> A -> Z) `{!Consistent cmp}
    (l : list A) :
  ordered (fun a b => cmp a b <= 0) (JS.sort cmp l).
Proof. apply StronglySorted_ordered, sort_StronglySorted, _. Qed.

(** ** Strings *)

Lemma append_cons (c : ascii) (q s : string) :
  String c q +:+ s = String c (q +:+ s).
Proof. reflexivity. Qed.

Lemma prefix_spec (q s : string) :
  String.prefix q s = true <-> exists post, s = q +:+ post.
Proof.
  revert s. induction q as [|c q IH]; intros [|d s]; simpl.
  - split; [intros _; by exists ""|done].
  - split; [intros _; by exists (String d s)|done].
  - split; [done|intros [post ?]; done].
  -
destruct (Ascii.ascii_dec c d) as [->|Hcd].
    + rewrite IH. split; intros [post Hpost]; exists post;
        rewrite append_cons in *; congruence.
    + split; [done|]. intros [post Hpost]. rewrite append_cons in Hpost. congruence.
Qed.

Lemma includes_spec (s q : string) : JS.includes s q = true <-> occursIn q s.
Proof.
  unfold occursIn. induction s as [|c s IH].
  - change (JS.includes "" q) with (String.prefix q "" || false).
    rewrite orb_false_r, prefix_spec. split.
    + intros [post Hpost]. by exists "", post.
    + intros [[|??] [post Hpost]]; [by exists post|done].
  - change (JS.includes (String c s) q)
      with (String.prefix q (String c s) || JS.includes s q).
    rewrite orb_true_iff, prefix_spec, IH. split.
    + intros [[post Hpost]|(pre & post & ->)].
      * by exists "", post.
      * by exists (String c pre), post.
    + intros [[|d pre] [post Hpost]].
      * left. by exists post.
      * right. exists pre, post. rewrite append_cons in Hpost. congruence.
Qed.

#[global] Instance occursIn_dec (q s : string) : Decision (occursIn q s).
Proof.
  refine (cast_if (decide (JS.includes s q = true))); by rewrite <-includes_spec.
Defined.

#[global] Instance matchesQuery_dec (q : string) (t : Task) :
  Decision (matchesQuery q t).
Proof.
  unfold matchesQuery, containsIgnoringCase.
  destruct (description t) as [d|].
  - refine (cast_if (decide
      (occursIn (JS.toLowerCase q) (JS.toLowerCase (title t))
       \/ occursIn (JS.toLowerCase q) (JS.toLowerCase d)))).
    + destruct o as [?|?]; [by left|right; by exists d].
    + intros [?|(d' & [= <-] & ?)]; tauto.
  - refine (cast_if (decide
      (occursIn (JS.toLowerCase q) (JS.toLowerCase (title t))))).
    + by left.
    + intros [?|(d' & [=] & ?)]; tauto.
Defined.

Lemma toLowerCase_empty (s : string) : JS.toLowerCase s = "" -> s = "".
Proof. by destruct s. Qed.

Lemma occursIn_empty (q : string) : occursIn q "" -> q = "".
Proof.
  intros (pre & post & H). destruct pre; [|done]. by destruct q.
Qed.

(** The predicate of the search filter decides [matchesQuery] for a
    non-empty query: an empty description, which the code skips as falsy,
    contains no non-empty query. *)
Lemma matchesSearch_spec (q : string) (t : Task) :
  q <> "" -> Is_true (matchesSearch q t) <-> matchesQuery q t.
Proof.
  intros Hq. unfold matchesSearch, matchesQuery, containsIgnoringCase.
  rewrite orb_True, Is_true_true, includes_spec.
  apply or_iff_compat_l.
  destruct (description t) as [d|]; cbv beta iota.
  - rewrite andb_True, (Is_true_true (JS.includes _ _)), includes_spec. split.
    + intros [_ H]. by exists d.
    + intros (d' & [= <-] & H). split; [|done].
      destruct d; [|done]. simpl in H.
      apply occursIn_empty, toLowerCase_empty in H. done.
  - split; [done|]. by intros (d & [=] & _).
Qed.

Lemma blank_trimStart (s : string) : blank s = true -> JS.trimStart s = "".
Proof.
  induction s as [|c s IH]; [done|]. simpl.
  intros [Hc Hs]%andb_true_iff. rewrite Hc. auto.
Qed.

Lemma trimEnd_empty (s : string) : JS.trimEnd s = "" -> blank s = true.
Proof.
  induction s as [|c s IH]; [done|]. simpl.
  destruct (JS.trimEnd s); [|done].
  destruct (JS.isWhiteSpace c); [|done]. auto.
Qed.

Lemma trimStart_empty (s : string) : JS.trimStart s = "" -> blank s = true.
Proof.
  induction s as [|c s IH]; [done|]. simpl.
  destruct (JS.isWhiteSpace c); [auto|done].
Qed.

Lemma trimStart_suffix_blank (s : string) :
  blank (JS.trimStart s) = true -> blank s = true.
Proof.
  induction s as [|c s IH]; [done|]. simpl.
  destruct (JS.isWhiteSpace c) eqn:Hc; [auto|].
  simpl. by rewrite Hc.
Qed.

(** [trim] yields the empty string exactly on blank input. *)
Lemma trim_empty_iff (s : string) : JS.trim s = "" <-> blank s = true.
Proof.
  unfold JS.trim. split.
  - intros H. by apply trimStart_suffix_blank, trimEnd_empty.
  - intros H. by rewrite blank_trimStart.
Qed.

Lemma truthy_trim (s : string) :
  JS.truthy (JS.trim s) = negb (blank s).
Proof.
  destruct (blank s) eqn:Hb.
  - apply trim_empty_iff in Hb. by rewrite Hb.
  - destruct (JS.trim s) eqn:Ht; [|done].
    apply trim_empty_iff in Ht. congruence.
Qed.

(** ** The filter stage of the list screen *)

Lemma filter_all {A : Type} (P : A -> Prop) `{!forall x, Decision (P x)}
    (l : list A) :
  (forall x, P x) -> filter P l = l.
Proof.
  intros HP. induction l as [|x l IH]; [done|].
  by rewrite filter_cons_True, IH.
Qed.

(** An optional filter is a filter by an implication. *)
Lemma filter_when {A : Type} (c : Prop) `{!Decision c} (P : A -> Prop)
    `{!forall x, Decision (P x)} (l : list A) :
  (if decide c then filter P l else l) = filter (fun x => c -> P x) l.
Proof.
  destruct (decide c) as [Hc|Hc].
  - apply list_filter_iff. naive_solver.
  - symmetry. apply filter_all. naive_solver.
Qed.

Lemma truthy_spec (s : string) : JS.truthy s = true <-> s <> "".
Proof. by destruct s. Qed.

Section FilterFacts.
Context `{!Collation}.

(** The list before sorting: one filter by the conjunction of the search
    predicate (when a query is typed) and of the supplied equality
    filters. *)
Lemma filterAndSort_filter
    (tasks : list Task) (q c p s sortBy : string) :
  filterAndSort tasks q c p s sortBy =
  JS.sort (compareTasks sortBy)
    (filter (fun t => (q <> "" -> Is_true (matchesSearch q t))
                      /\ satisfiesFilters c p s t) tasks).
Proof.
  unfold filterAndSort. f_equal.
  rewrite !filter_when.
  assert ((if JS.truthy q
           then filter (fun t => Is_true (matchesSearch q t)) tasks
           else tasks)
          = filter (fun t => q <> "" -> Is_true (matchesSearch q t)) tasks)
    as ->.
  { destruct q; simpl.
    - symmetry. apply filter_all. done.
    - apply list_filter_iff. naive_solver. }
  rewrite !list_filter_filter.
  apply list_filter_iff. unfold satisfiesFilters. tauto.
Qed.

Lemma filterAndSort_Permutation
    (tasks : list Task) (q c p s sortBy : string) :
  filterAndSort tasks q c p s sortBy ≡ₚ
  filter (fun t => (q <> "" -> Is_true (matchesSearch q t))
                   /\ satisfiesFilters c p s t) tasks.
Proof. rewrite filterAndSort_filter. apply sort_Permutation. Qed.

Lemma Status_toString_completed (st : Status) :
  Status_toString st = "completed" <-> st = completed.
Proof. by destruct st. Qed.

(** C1: with no search typed, the displayed list holds exactly the fetched
    tasks that satisfy every supplied equality filter (category, priority,
    status) at once, each as often as it was fetched; selecting the status
    "completed" alone shows exactly the fetched tasks whose status is
    completed. *)
Theorem list_returns_tasks_matching_all_filters
    (tasks : list Task) (selectedCategory selectedPriority selectedStatus sortBy : string) :
  filterAndSort tasks "" selectedCategory selectedPriority selectedStatus sortBy
    ≡ₚ filter (satisfiesFilters selectedCategory selectedPriority selectedStatus) tasks
  /\ (forall t,
        t ∈ filterAndSort tasks "" "all" "all" "completed" sortBy
        <-> t ∈ tasks /\ status t = completed).
Proof.
  split.
  - rewrite filterAndSort_Permutation.
    rewrite (list_filter_iff _
      (satisfiesFilters selectedCategory selectedPriority selectedStatus));
      [done|].
    intros t. split; [by intros [_ ?]|by split].
  - intros t. rewrite filterAndSort_Permutation, list_elem_of_filter.
    unfold satisfiesFilters. rewrite <-Status_toString_completed.
    split.
    + intros [(_ & _ & _ & Hs) Ht]. split; [done|]. by apply Hs.
    + intros [Ht Hs]. by repeat split.
Qed.

(** C9: for a non-empty search query the displayed list holds exactly the
    fetched tasks that pass the supplied category, priority and status
    filters and whose title contains the query case-insensitively, or whose
    description is present and contains it case-insensitively. *)
Theorem search_keeps_tasks_containing_query
    (tasks : list Task) (q selectedCategory selectedPriority selectedStatus sortBy : string) :
  q <> "" ->
  filterAndSort tasks q selectedCategory selectedPriority selectedStatus sortBy
    ≡ₚ filter (fun t => matchesQuery q t
                        /\ satisfiesFilters selectedCategory selectedPriority
                                            selectedStatus t) tasks.
Proof.
  intros Hq. rewrite filterAndSort_Permutation.
  rewrite (list_filter_iff _
    (fun t => matchesQuery q t
              /\ satisfiesFilters selectedCategory selectedPriority
                                  selectedStatus t)); [done|].
  intros t. rewrite (matchesSearch_spec q t Hq). tauto.
Qed.

(** C10: the displayed list is a sub-multiset of the fetched list (no task
    is made up, repeated or altered), so each displayed task is a fetched
    task; with an empty query and all three selections on "all" it is a
    permutation of the fetched list. *)
Theorem pipeline_preserves_tasks
    (tasks : list Task) (q selectedCategory selectedPriority selectedStatus sortBy : string) :
  filterAndSort tasks q selectedCategory selectedPriority selectedStatus sortBy
    ⊆+ tasks
  /\ (forall t,
        t ∈ filterAndSort tasks q selectedCategory selectedPriority
                          selectedStatus sortBy ->
        t ∈ tasks)
  /\ filterAndSort tasks "" "all" "all" "all" sortBy ≡ₚ tasks.
Proof.
  assert (filterAndSort tasks q selectedCategory selectedPriority
                        selectedStatus sortBy ⊆+ tasks) as Hsub.
  { rewrite filterAndSort_Permutation. apply sublist_submseteq, sublist_filter. }
  split; [done|]. split.
  - intros t Ht. by eapply elem_of_submseteq.
  - rewrite filterAndSort_Permutation. rewrite filter_all; [done|].
    unfold satisfiesFilters. intros t. by repeat split.
Qed.

End FilterFacts.

(** ** The sort stage of the list screen *)

Section SortKeys.
Context `{!Collation}.

Lemma compareTasks_due_date (a b : Task) :
  compareTasks "due_date" a b =
  match due_date a, due_date b with
  | None, None => 0
  | None, Some _ => 1
  | Some _, None => -1
  | Some da, Some db => da - db
  end.
Proof. reflexivity. Qed.

Lemma compareTasks_priority (a b : Task) :
  compareTasks "priority" a b =
  priorityOrder (priority b) - priorityOrder (priority a).
Proof. reflexivity. Qed.

Lemma compareTasks_default (sortBy : string) (a b : Task) :
  sortBy <> "title" -> sortBy <> "due_date" -> sortBy <> "priority" ->
  compareTasks sortBy a b = created_at b - created_at a.
Proof.
  intros. unfold compareTasks. by rewrite !decide_False.
Qed.

#[local] Instance compareTasks_due_date_consistent :
  Consistent (compareTasks "due_date").
Proof.
  split.
  - intros a b. rewrite !compareTasks_due_date.
    destruct (due_date a), (due_date b); lia.
  - intros a b c. rewrite !compareTasks_due_date.
    destruct (due_date a), (due_date b), (due_date c); lia.
Qed.

#[local] Instance compareTasks_priority_consistent :
  Consistent (compareTasks "priority").
Proof.
  split; intros; rewrite !compareTasks_priority in *; lia.
Qed.

Lemma compareTasks_default_consistent (sortBy : string) :
  sortBy <> "title" -> sortBy <> "due_date" -> sortBy <> "priority" ->
  Consistent (compareTasks sortBy).
Proof.
  intros. split; intros *; rewrite !compareTasks_default by done; lia.
Qed.

Lemma ordered_impl {A : Type} (R R' : A -> A -> Prop) (l : list A) :
  (forall a b, R a b -> R' a b) -> ordered R l -> ordered R' l.
Proof. intros HR Hl i j a b ???. eapply HR, Hl; eauto. Qed.

Lemma priorityOrder_lower (p q : Priority) :
  lowerPriority p q <-> priorityOrder p < priorityOrder q.
Proof. destruct p, q; simpl; split; (lia || tauto). Qed.

(** C2: in the list sorted by priority no task stands before a task of
    strictly higher priority, in the semantic order low below medium below
    high; the order is not the lexical one of the literals, in which "high"
    comes before "medium": the high-priority example task is displayed
    before the medium-priority one. *)
Theorem priority_sort_is_semantic
    (tasks : list Task) (q selectedCategory selectedPriority selectedStatus : string) :
  ordered (fun a b => ~ lowerPriority (priority a) (priority b))
    (filterAndSort tasks q selectedCategory selectedPriority selectedStatus
                   "priority")
  /\ lexicallyBefore high medium
  /\ filterAndSort [milk; report] "" "all" "all" "all" "priority"
     = [report; milk].
Proof.
  split; [|split; reflexivity].
  rewrite filterAndSort_filter.
  eapply ordered_impl; [|apply sort_ordered, _].
  intros a b. cbv beta. rewrite compareTasks_priority, priorityOrder_lower. lia.
Qed.

(** C6, as the code has it: in the list sorted by due date a task without
    a due date never stands before a task that has one, and the tasks that
    have due dates stand in ascending order of their timestamps.  The screen
    has no sort direction to choose. *)
Theorem due_date_sort_undated_last_ascending
    (tasks : list Task) (q selectedCategory selectedPriority selectedStatus : string) :
  ordered (dueDateBefore Ascending)
    (filterAndSort tasks q selectedCategory selectedPriority selectedStatus
                   "due_date").
Proof.
  rewrite filterAndSort_filter.
  eapply ordered_impl; [|apply sort_ordered, _].
  intros a b. cbv beta. rewrite compareTasks_due_date. unfold dueDateBefore.
  destruct (due_date a), (due_date b); lia.
Qed.

(** C7: while the sort selection is the one the screen starts with, any
    two tasks adjacent in the displayed list have the earlier one created
    no earlier than the later one. *)
Theorem default_sort_is_created_at_descending
    (st : ListScreen.State) (i : nat) (a b : Task) :
  ListScreen.sortBy st = ListScreen.sortBy ListScreen.initial ->
  ListScreen.filteredTasks st !! i = Some a ->
  ListScreen.filteredTasks st !! S i = Some b ->
  created_at b <= created_at a.
Proof.
  unfold ListScreen.filteredTasks. intros -> Ha Hb. simpl in *.
  rewrite filterAndSort_filter in Ha, Hb.
  assert (Consistent (compareTasks "created_at"))
    by (by apply compareTasks_default_consistent).
  pose proof (sort_ordered (compareTasks "created_at") _ i (S i) a b
                (Nat.lt_succ_diag_r i) Ha Hb) as Hab.
  cbv beta in Hab. rewrite compareTasks_default in Hab by done. lia.
Qed.

End SortKeys.

(** C6 as stated asks for the due-date order in the descending direction
    as well.  The due-date sort of the list screen does not produce it: of
    two dated tasks fetched latest-first, the earlier one is displayed
    first. *)
Lemma due_date_sort_not_descending :
  @filterAndSort codeUnitCollation [report; thesis]
                 "" "all" "all" "all" "due_date"
  = [thesis; report]
  /\ ~ ordered (dueDateBefore Descending)
        (@filterAndSort codeUnitCollation [report; thesis]
                        "" "all" "all" "all" "due_date").
Proof.
  split; [reflexivity|].
  intros H. specialize (H 0%nat 1%nat thesis report).
  vm_compute in H. apply H; (lia || reflexivity).
Qed.

Lemma due_date_sort_undated_last_ascending_witness :
  dueDateBefore Ascending thesis report /\ dueDateBefore Ascending report milk.
Proof.
  pose proof (@due_date_sort_undated_last_ascending codeUnitCollation
                [milk; report; thesis] "" "all" "all" "all") as H.
  split.
  - apply (H 0%nat 1%nat); [lia|reflexivity..].
  - apply (H 1%nat 2%nat); [lia|reflexivity..].
Defined.

Lemma priority_sort_is_semantic_witness :
  (lowerPriority (priority report) (priority milk) -> False)
  /\ (lowerPriority (priority milk) (priority thesis) -> False).
Proof.
  pose proof (proj1 (@priority_sort_is_semantic codeUnitCollation
                       [thesis; milk; report] "" "all" "all" "all")) as H.
  split.
  - apply (H 0%nat 1%nat); [lia|reflexivity..].
  - apply (H 1%nat 2%nat); [lia|reflexivity..].
Defined.

Lemma default_sort_is_created_at_descending_witness :
  created_at milk <= created_at report.
Proof.
  apply (@default_sort_is_created_at_descending codeUnitCollation
           (ListScreen.setTasks [milk; report; thesis] ListScreen.initial)
           1%nat report milk); reflexivity.
Defined.

Lemma search_keeps_tasks_containing_query_witness :
  @filterAndSort codeUnitCollation [milk; report; thesis]
                 "ANA" "all" "all" "pending" "title"
  ≡ₚ filter (fun t => matchesQuery "ANA" t
                      /\ satisfiesFilters "all" "all" "pending" t)
            [milk; report; thesis].
Proof.
  apply (@search_keeps_tasks_containing_query codeUnitCollation). done.
Defined.

(** ** Tasks without a due date *)

Section Undated.
Context `{!DateFns}.

Lemma length_filter_without {A : Type} (P : A -> Prop)
    `{!forall x, Decision (P x)} (l1 l2 : list A) (x : A) :
  ~ P x ->
  length (filter P (l1 ++ x :: l2)) = length (filter P (l1 ++ l2)).
Proof.
  intros Hx. by rewrite !filter_app, filter_cons_False.
Qed.

(** C8: a task without a due date gets no due-date badge, and neither the
    overdue count of the list-screen stats nor the overdue and today's-tasks
    counts of the analytics count it: each count is what it is without the
    task. *)
Theorem undated_task_never_overdue_or_due_today
    (colors : Colors) (now : Z) (t : Task) (before after : list Task) :
  due_date t = None ->
  getDueDateInfo colors now (due_date t) = None
  /\ isOverdue now t = false
  /\ overdue (getTaskStats now (before ++ t :: after))
     = overdue (getTaskStats now (before ++ after))
  /\ isOverdueTask now t = false
  /\ isTodaysTask now t = false
  /\ overdueTasks (analyzeData now (before ++ t :: after))
     = overdueTasks (analyzeData now (before ++ after))
  /\ todaysTasks (analyzeData now (before ++ t :: after))
     = todaysTasks (analyzeData now (before ++ after)).
Proof.
  intros Hdue.
  assert (isOverdue now t = false) as Ho by (unfold isOverdue; by rewrite Hdue).
  assert (isOverdueTask now t = false) as Ha
    by (unfold isOverdueTask; by rewrite Hdue).
  assert (isTodaysTask now t = false) as Ht
    by (unfold isTodaysTask; by rewrite Hdue).
  rewrite Hdue. repeat split; try done;
    unfold getTaskStats, analyzeData;
    cbv beta iota zeta delta [overdue overdueTasks todaysTasks];
    f_equal; apply length_filter_without; rewrite ?Ho, ?Ha, ?Ht; simpl; tauto.
Qed.

End Undated.

Lemma undated_task_never_overdue_or_due_today_witness :
  due_date milk = None
  /\ @getDueDateInfo utcDateFns (getColors false) 9000 (due_date milk) = None
  /\ overdue (getTaskStats 9000 ([report] ++ milk :: [thesis]))
     = overdue (getTaskStats 9000 ([report] ++ [thesis])).
Proof.
  split; [reflexivity|].
  pose proof (@undated_task_never_overdue_or_due_today utcDateFns
                (getColors false) 9000 milk [report] [thesis] eq_refl) as H.
  split; [apply H|apply H].
Defined.

(** ** Creating a task *)

Section BlankTitle.
Context {B : Type} (serve : Request -> B -> option Response * B).

(** C3: when the title typed is blank (empty or white space only), neither
    create path of the client sends a request, whatever the backend is: the
    backend state and the list of requests sent are as before.  The
    add-task screen reports a validation error; the quick-add bar returns
    without a message. *)
Theorem blank_title_is_rejected_without_write
    (text : string) (form : AddTaskScreen.State) (screen : ListScreen.State)
    (rt : Runtime B) :
  blank text = true ->
  AddTaskScreen.title form = text ->
  ListScreen.quickAddText screen = text ->
  AddTaskScreen.createTask serve form rt
  = (form, mkRuntime (backend rt) (sent rt)
             (alerts rt ++ [("Validation Error", "Please enter a task title")])
             (navigatedBack rt))
  /\ ListScreen.quickAddTask serve screen rt = (screen, rt).
Proof.
  intros Hblank Hform Hscreen.
  unfold AddTaskScreen.createTask, ListScreen.quickAddTask.
  rewrite Hform, Hscreen, truthy_trim, Hblank. simpl. done.
Qed.

End BlankTitle.

(** The service itself rejects a blank title and leaves the store as it
    was. *)
Lemma create_blank_title (input : TaskCreate.t) (s : TaskService.Server) :
  blank (TaskCreate.title input) = true ->
  TaskService.create input s = (TaskService.Err TaskService.ValidationError, s).
Proof.
  intros Hblank%trim_empty_iff. unfold TaskService.create.
  by rewrite decide_True.
Qed.

Lemma blank_title_is_rejected_without_write_witness :
  let rt := mkRuntime (TaskService.mkServer ∅ 1000) [] [] 0 in
  let form := AddTaskScreen.mkState "  " "note" high work false None false in
  let screen := ListScreen.setQuickAddText "  " ListScreen.initial in
  backend (AddTaskScreen.createTask TaskService.serve form rt).2 = backend rt
  /\ ListScreen.quickAddTask TaskService.serve screen rt = (screen, rt).
Proof.
  intros rt form screen.
  destruct (blank_title_is_rejected_without_write TaskService.serve
              "  " form screen rt eq_refl eq_refl eq_refl) as [-> ->].
  by split.
Defined.

(** C5: a create whose title is not blank and which leaves out priority
    and category (the body has no status field) stores a task with priority
    medium, category personal, status pending and equal creation and update
    stamps. *)
Theorem create_applies_defaults
    (text : string) (note : option string) (due : option Z)
    (s : TaskService.Server) :
  blank text = false ->
  exists t,
    TaskService.create
      {| TaskCreate.title := text;
         TaskCreate.description := note;
         TaskCreate.priority := None;
         TaskCreate.category := None;
         TaskCreate.due_date := due |} s
    = (TaskService.Ok t,
       TaskService.mkServer (<[id t := t]> (TaskService.store s))
                            (TaskService.clock s))
    /\ TaskService.store s !! id t = None
    /\ priority t = medium
    /\ category t = personal
    /\ status t = pending
    /\ created_at t = updated_at t.
Proof.
  intros Hblank. unfold TaskService.create. simpl.
  rewrite decide_False.
  - exists (mkTask (fresh (dom (TaskService.store s))) (JS.trim text) note due
                   medium personal pending
                   (TaskService.clock s) (TaskService.clock s)).
    split; [reflexivity|]. simpl. split; [|done].
    apply not_elem_of_dom, is_fresh.
  - intros Htrim%trim_empty_iff. congruence.
Qed.

Lemma create_applies_defaults_witness :
  exists t,
    TaskService.create
      {| TaskCreate.title := "Buy milk";
         TaskCreate.description := None;
         TaskCreate.priority := None;
         TaskCreate.category := None;
         TaskCreate.due_date := None |} (TaskService.mkServer ∅ 1000)
    = (TaskService.Ok t,
       TaskService.mkServer (<[id t := t]> ∅) 1000)
    /\ TaskService.store (TaskService.mkServer ∅ 1000) !! id t = None
    /\ priority t = medium
    /\ category t = personal
    /\ status t = pending
    /\ created_at t = updated_at t.
Proof.
  apply (create_applies_defaults "Buy milk" None None
           (TaskService.mkServer ∅ 1000)).
  reflexivity.
Defined.

(** ** Updating the status of a task *)

(** A status-only update of a stored task: what it keeps and what it
    sets. *)
Lemma update_status_only
    (i : string) (newStatus : Status) (s : TaskService.Server) (t : Task) :
  TaskService.store s !! i = Some t ->
  TaskService.update i (statusOnly newStatus) s
  = (TaskService.Ok (TaskService.merge (TaskService.clock s)
                                       (statusOnly newStatus) t),
     TaskService.mkServer
       (<[i := TaskService.merge (TaskService.clock s) (statusOnly newStatus) t]>
          (TaskService.store s))
       (TaskService.clock s)).
Proof. intros Ht. unfold TaskService.update. by rewrite Ht. Qed.

Lemma serve_clock (req : Request) (s : TaskService.Server) :
  TaskService.clock (TaskService.serve req s).2 = TaskService.clock s.
Proof.
  destruct req as [|body|i body]; simpl; [done| |].
  - unfold TaskService.create. by case_decide.
  - unfold TaskService.update.
    destruct (TaskService.store s !! i); [by case_decide|done].
Qed.

(** Serving a request keeps every stamp within the instant served. *)
Lemma serve_stamped (req : Request) (s : TaskService.Server) :
  stamped s -> stamped (TaskService.serve req s).2.
Proof.
  intros Hs. destruct req as [|body|i body]; simpl; [done| |].
  - unfold TaskService.create. case_decide; [done|]. simpl.
    intros j t. simpl. rewrite lookup_insert. case_decide.
    + intros [= <-]. simpl. lia.
    + apply Hs.
  - unfold TaskService.update.
    destruct (TaskService.store s !! i) as [t0|]; [|done].
    case_decide; [done|]. simpl.
    intros j t. simpl. rewrite lookup_insert. case_decide.
    + intros [= <-]. simpl. lia.
    + apply Hs.
Qed.

Lemma serveAt_stamped (now : Z) (req : Request) (s : TaskService.Server) :
  stamped s -> TaskService.clock s <= now ->
  stamped (serveAt now req s).2 /\ TaskService.clock (serveAt now req s).2 = now.
Proof.
  intros Hs Hnow. unfold serveAt. split; [|by rewrite serve_clock].
  apply serve_stamped. intros i t Ht. simpl in *. specialize (Hs i t Ht). lia.
Qed.

(** During a chronological history every stamp stays within the last
    instant served, and the request that follows is served later. *)
Lemma run_stamped (history : list (Z * Request)) (now : Z) (req : Request)
    (s : TaskService.Server) :
  stamped s ->
  chronological (TaskService.clock s) (history ++ [(now, req)]) ->
  stamped (run history s) /\ TaskService.clock (run history s) < now.
Proof.
  revert s. induction history as [|[now' req'] history IH]; intros s Hs Hc.
  - simpl in *. split; [done|lia].
  - simpl in Hc. destruct Hc as [Hlt Hc]. simpl.
    destruct (serveAt_stamped now' req' s Hs) as [Hs' Hclock]; [lia|].
    apply IH; [done|]. by rewrite Hclock.
Qed.

(** C4: in a service that has served a chronological history of requests,
    an update of a stored task that supplies only the status keeps its id,
    title, description, priority, category, due date and creation stamp,
    sets its status to the one supplied, moves its update stamp forward, to
    the instant of the update, and leaves every other stored task as it
    was. *)
Theorem status_update_changes_only_status
    (start : Z) (history : list (Z * Request)) (now : Z)
    (i : string) (newStatus : Status) (t : Task) :
  chronological start (history ++ [(now, PUT_task i (statusOnly newStatus))]) ->
  TaskService.store (run history (started start)) !! i = Some t ->
  exists t' s',
    serveAt now (PUT_task i (statusOnly newStatus)) (run history (started start))
    = (Some {| status_code := 200; json := JTask t' |}, s')
    /\ TaskService.store s' !! i = Some t'
    /\ id t' = id t
    /\ title t' = title t
    /\ description t' = description t
    /\ priority t' = priority t
    /\ category t' = category t
    /\ due_date t' = due_date t
    /\ created_at t' = created_at t
    /\ status t' = newStatus
    /\ updated_at t < updated_at t'
    /\ updated_at t' = now
    /\ (forall j, j <> i ->
          TaskService.store s' !! j
          = TaskService.store (run history (started start)) !! j).
Proof.
  intros Hc Ht.
  destruct (run_stamped history now (PUT_task i (statusOnly newStatus))
              (started start)) as [Hs Hlt]; [by intros ?? | done |].
  unfold serveAt. simpl.
  rewrite (update_status_only i newStatus _ t) by done. simpl.
  eexists _, _. split; [reflexivity|]. simpl.
  split; [apply lookup_insert_eq|].
  repeat split; try done.
  - specialize (Hs i t Ht). lia.
  - intros j Hj. by apply lookup_insert_ne.
Qed.

Lemma status_update_changes_only_status_witness :
  let history := [(1000, POST_tasks (titleOnly "Buy milk"));
                  (2000, POST_tasks (titleOnly "Pay rent"))] in
  let s := run history (started 0) in
  exists i t t' s',
    TaskService.store s !! i = Some t
    /\ title t = "Buy milk"
    /\ updated_at t = 1000
    /\ serveAt 3000 (PUT_task i (statusOnly completed)) s
       = (Some {| status_code := 200; json := JTask t' |}, s')
    /\ title t' = "Buy milk"
    /\ status t' = completed
    /\ updated_at t < updated_at t'.
Proof.
  intros history s.
  pose (i := fresh (dom (TaskService.store (started 0)))).
  pose (t := mkTask i "Buy milk" None None medium personal pending 1000 1000).
  assert (TaskService.store s !! i = Some t) as Ht by (by vm_compute).
  destruct (status_update_changes_only_status 0 history 3000 i completed t)
    as (t' & s' & Hupd & _ & _ & Htitle & _ & _ & _ & _ & _ & Hst & Hlt & _).
  - simpl. lia.
  - exact Ht.
  - exists i, t, t', s'. repeat split; try done.
Defined.

(** The status toggle of the list screen asks the service for exactly such
    an update and, when it succeeds, patches the status of its own copy of
    the task; the copy keeps its old [updated_at] until the next fetch. *)
Lemma toggleTaskStatus_run
    (task : Task) (st : ListScreen.State) (rt : Runtime TaskService.Server)
    (t : Task) :
  TaskService.store (backend rt) !! id task = Some t ->
  let newStatus :=
    if decide (status task = pending) then completed else pending in
  let '(st', rt') :=
    ListScreen.toggleTaskStatus TaskService.serve task st rt in
  sent rt' = sent rt ++ [PUT_task (id task) (statusOnly newStatus)]
  /\ backend rt'
     = (TaskService.update (id task) (statusOnly newStatus) (backend rt)).2
  /\ alerts rt' = alerts rt
  /\ ListScreen.tasks st'
     = map (fun x => if decide (id x = id task)
                     then ListScreen.withStatus x newStatus else x)
           (ListScreen.tasks st).
Proof.
  intros Ht newStatus.
  unfold ListScreen.toggleTaskStatus, mbind, Eff_bind, fetch.
  fold newStatus. simpl.
  unfold TaskService.update. rewrite Ht. simpl. done.
Qed.

(** The quick-add bar, for a text that is not blank, first posts the
    trimmed text as title with priority medium and category personal, and
    no other field. *)
Lemma quickAddTask_request {B : Type}
    (serve : Request -> B -> option Response * B)
    (st : ListScreen.State) (rt : Runtime B) :
  blank (ListScreen.quickAddText st) = false ->
  sent rt ++ [POST_tasks {|
    TaskCreate.title := JS.trim (ListScreen.quickAddText st);
    TaskCreate.description := None;
    TaskCreate.priority := Some medium;
    TaskCreate.category := Some personal;
    TaskCreate.due_date := None |}]
  `prefix_of` sent (ListScreen.quickAddTask serve st rt).2.
Proof.
  intros Hblank. unfold ListScreen.quickAddTask.
  rewrite truthy_trim, Hblank. simpl.
  unfold mbind, Eff_bind, fetch. simpl.
  destruct (serve _ (backend rt)) as [[response|] b']; simpl; [|done].
  destruct (ok response); simpl; [|done].
  unfold ListScreen.fetchTasks, mbind, Eff_bind, fetch. simpl.
  destruct (serve GET_tasks b') as [[r|] b'']; simpl.
  - destruct (ok r); [destruct (json r)|]; simpl; by apply prefix_app_r.
  - by apply prefix_app_r.
Qed.

(** No sort selection reverses the direction: whatever [sortBy] holds, two
    tasks that every comparator ranks alike are displayed earliest-due
    first. *)
Lemma no_sort_key_gives_descending_due_dates (sortBy : string) :
  @filterAndSort codeUnitCollation [late; early] "" "all" "all" "all" sortBy
  = [early; late].
Proof.
  unfold filterAndSort. simpl.
  unfold compareTasks.
  repeat (case_decide; [reflexivity|]). reflexivity.
Qed.

(** * Further properties of the client *)

(** ** The filter-and-sort effect applied again, ties, and odd selections *)

Lemma filter_all_elem {A : Type} (P : A -> Prop) `{!forall x, Decision (P x)}
    (l : list A) :
  (forall x, x ∈ l -> P x) -> filter P l = l.
Proof.
  induction l as [|x l IH]; intros HP; [done|].
  rewrite filter_cons_True by (apply HP; left).
  rewrite IH; [done|]. intros y Hy. apply HP. by right.
Qed.

Lemma sort_sorted {A : Type} (cmp : A -> A -> Z) (l : list A) :
  StronglySorted (fun a b => cmp a b <= 0) l -> JS.sort cmp l = l.
Proof.
  induction 1 as [|x l Hl IH Hx]; [done|].
  simpl. fold (JS.sort cmp l). rewrite IH.
  destruct l as [|y l]; [done|]. simpl.
  apply Forall_cons in Hx as [Hxy _].
  by rewrite (proj2 (Z.leb_le _ _) Hxy).
Qed.

(** Sorting does not move the members of a group the comparator ranks
    alike past each other. *)
Lemma insert_filter_ties {A : Type} (cmp : A -> A -> Z) (P : A -> Prop)
    `{!forall x, Decision (P x)} (x : A) (l : list A) :
  (forall a b, P a -> P b -> cmp a b <= 0) ->
  filter P (JS.insert cmp x l) = filter P (x :: l).
Proof.
  intros Hties. induction l as [|y l IH]; [done|]. simpl.
  destruct (Z.leb_spec (cmp x y) 0) as [Hxy|Hxy]; [done|].
  rewrite (filter_cons _ y), IH, !(filter_cons _ x), (filter_cons _ y).
  destruct (decide (P x)) as [Hx|Hx]; [|done].
  destruct (decide (P y)) as [Hy|Hy]; [|done].
  specialize (Hties x y Hx Hy). lia.
Qed.

Lemma sort_filter_ties {A : Type} (cmp : A -> A -> Z) (P : A -> Prop)
    `{!forall x, Decision (P x)} (l : list A) :
  (forall a b, P a -> P b -> cmp a b <= 0) ->
  filter P (JS.sort cmp l) = filter P l.
Proof.
  intros Hties. induction l as [|x l IH]; [done|].
  simpl. fold (JS.sort cmp l).
  by rewrite insert_filter_ties, !filter_cons, IH.
Qed.

Section PipelineFacts.
Context `{!Collation}.

Lemma filterAndSort_passes (tasks : list Task) (q c p s sortBy : string) :
  filterAndSort tasks q c p s sortBy
  = JS.sort (compareTasks sortBy) (filter (passes q c p s) tasks).
Proof. apply filterAndSort_filter. Qed.

Lemma compareTasks_title (a b : Task) :
  compareTasks "title" a b = localeCompare (title a) (title b).
Proof. reflexivity. Qed.

(** Every comparator of the screen is consistent when the collation is. *)
Lemma compareTasks_consistent (sortBy : string) :
  Consistent localeCompare -> Consistent (compareTasks sortBy).
Proof.
  intros Hloc.
  destruct (decide (sortBy = "title")) as [->|Ht].
  { split; intros *; rewrite !compareTasks_title.
    - apply cmp_total.
    - apply cmp_trans. }
  destruct (decide (sortBy = "due_date")) as [->|Hd];
    [apply compareTasks_due_date_consistent|].
  destruct (decide (sortBy = "priority")) as [->|Hp];
    [apply compareTasks_priority_consistent|].
  by apply compareTasks_default_consistent.
Qed.

(** X1: running the filter-and-sort effect on its own output, with the same
    query, selections and sort key, gives that output again, when the
    collation is consistent. *)
Theorem filterAndSort_idempotent
    (tasks : list Task) (q c p s sortBy : string) :
  Consistent localeCompare ->
  filterAndSort (filterAndSort tasks q c p s sortBy) q c p s sortBy
  = filterAndSort tasks q c p s sortBy.
Proof.
  intros Hloc. pose proof (compareTasks_consistent sortBy Hloc).
  rewrite (filterAndSort_passes (filterAndSort _ _ _ _ _ _)).
  rewrite filter_all_elem.
  - apply sort_sorted. rewrite filterAndSort_passes.
    by apply sort_StronglySorted.
  - intros t. rewrite filterAndSort_passes, elem_of_sort, list_elem_of_filter.
    tauto.
Qed.

(** X2: tasks that the comparator ranks alike (a group [P] with
    [compare a b <= 0] for all its members) are displayed in the order in
    which they were fetched. *)
Theorem ties_keep_fetched_order
    (tasks : list Task) (q c p s sortBy : string)
    (P : Task -> Prop) `{!forall t, Decision (P t)} :
  (forall a b, P a -> P b -> compareTasks sortBy a b <= 0) ->
  filter P (filterAndSort tasks q c p s sortBy)
  = filter P (filter (passes q c p s) tasks).
Proof.
  intros Hties. rewrite filterAndSort_passes. by apply sort_filter_ties.
Qed.

(** X3: the sort key only reorders: two sort keys display the same tasks,
    each as often. *)
Theorem sort_key_only_reorders
    (tasks : list Task) (q c p s sortBy sortBy' : string) :
  filterAndSort tasks q c p s sortBy ≡ₚ filterAndSort tasks q c p s sortBy'.
Proof. by rewrite !filterAndSort_passes, !sort_Permutation. Qed.

(** X4: a selection that is neither "all" nor a literal of its field
    empties the displayed list. *)
Theorem unknown_selection_displays_nothing
    (tasks : list Task) (q c p s sortBy : string) :
  (c <> "all" /\ forall x, Category_toString x <> c)
  \/ (p <> "all" /\ forall x, Priority_toString x <> p)
  \/ (s <> "all" /\ forall x, Status_toString x <> s) ->
  filterAndSort tasks q c p s sortBy = [].
Proof.
  intros Hsel. rewrite filterAndSort_passes.
  replace (filter (passes q c p s) tasks) with (@nil Task); [done|].
  symmetry. induction tasks as [|t tasks IH]; [done|].
  rewrite filter_cons_False; [done|].
  unfold passes, satisfiesFilters. intros (_ & Hc & Hp & Hs).
  destruct Hsel as [[Hall Hno]|[[Hall Hno]|[Hall Hno]]].
  - by apply (Hno (category t)), Hc.
  - by apply (Hno (priority t)), Hp.
  - by apply (Hno (status t)), Hs.
Qed.

(** X5: in the list sorted by title no task stands before one whose title
    the collation puts strictly first, when the collation is consistent. *)
Theorem title_sort_follows_collation
    (tasks : list Task) (q c p s : string) :
  Consistent localeCompare ->
  ordered (fun a b => localeCompare (title a) (title b) <= 0)
    (filterAndSort tasks q c p s "title").
Proof.
  intros Hloc. pose proof (compareTasks_consistent "title" Hloc).
  rewrite filterAndSort_passes.
  eapply ordered_impl; [|by apply sort_ordered].
  intros a b. cbv beta. by rewrite compareTasks_title.
Qed.

(** X6: the search does not see the case of the query: two queries with
    the same lower-case form display the same list. *)
Theorem search_ignores_query_case
    (tasks : list Task) (q q' c p s sortBy : string) :
  JS.toLowerCase q = JS.toLowerCase q' ->
  filterAndSort tasks q c p s sortBy = filterAndSort tasks q' c p s sortBy.
Proof.
  intros Hq. rewrite !filterAndSort_passes. f_equal.
  apply list_filter_iff. intros t. unfold passes, matchesSearch.
  rewrite Hq.
  assert (q = "" <-> q' = "") as Hempty.
  { split; intros ->; simpl in Hq.
    - by apply toLowerCase_empty.
    - symmetry in Hq. by apply toLowerCase_empty. }
  tauto.
Qed.

End PipelineFacts.

(** Collation by code unit order is consistent. *)
Lemma codeUnitCollation_consistent : Consistent codeUnitCollation.
Proof.
  assert (forall a b, codeUnitCollation a b <= 0 <-> String.compare a b <> Gt)
    as Hle.
  { intros a b. unfold codeUnitCollation.
    destruct (String.compare a b); split; (lia || done). }
  split.
  - intros a b. rewrite !Hle, (String.compare_antisym b a).
    destruct (String.compare a b); simpl; auto.
  - intros a b c. rewrite !Hle. intros Hab Hbc.
    destruct (String.compare a b) eqn:Eab; [| |done].
    + apply String.compare_eq_iff in Eab as ->. done.
    + destruct (String.compare b c) eqn:Ebc; [| |done].
      * apply String.compare_eq_iff in Ebc as <-. by rewrite Eab.
      * apply OrderedTypeEx.String_as_OT.cmp_lt in Eab, Ebc.
        pose proof (OrderedTypeEx.String_as_OT.lt_trans _ _ _ Eab Ebc) as Hac.
        apply OrderedTypeEx.String_as_OT.cmp_lt in Hac.
        unfold OrderedTypeEx.String_as_OT.cmp in Hac. by rewrite Hac.
Qed.

Lemma filterAndSort_idempotent_witness :
  let shown := @filterAndSort codeUnitCollation
                 [milk; report; thesis; early; late] "a" "all" "all" "pending" "title" in
  @filterAndSort codeUnitCollation shown "a" "all" "all" "pending" "title" = shown.
Proof.
  apply (@filterAndSort_idempotent codeUnitCollation).
  apply codeUnitCollation_consistent.
Defined.

Lemma ties_keep_fetched_order_witness :
  filter (fun t => priority t = high)
    (@filterAndSort codeUnitCollation
       [late; report; milk; early] "" "all" "all" "all" "priority")
  = [report; early].
Proof.
  rewrite (@ties_keep_fetched_order codeUnitCollation
             [late; report; milk; early] "" "all" "all" "all" "priority"
             (fun t => priority t = high) _).
  - reflexivity.
  - intros a b Ha Hb. rewrite compareTasks_priority, Ha, Hb. done.
Defined.

Lemma unknown_selection_displays_nothing_witness :
  @filterAndSort codeUnitCollation [milk; report; thesis]
                 "" "Work" "all" "all" "created_at" = [].
Proof.
  apply (@unknown_selection_displays_nothing codeUnitCollation).
  left. split; [done|]. by intros [].
Defined.

Lemma title_sort_follows_collation_witness :
  codeUnitCollation (title milk) (title report) <= 0.
Proof.
  apply (@title_sort_follows_collation codeUnitCollation
           [report; thesis; milk] "" "all" "all" "all"
           codeUnitCollation_consistent 0%nat 1%nat milk report);
    [lia|reflexivity..].
Defined.

Lemma search_ignores_query_case_witness :
  @filterAndSort codeUnitCollation [milk; report; thesis]
                 "MILK" "all" "all" "all" "title"
  = @filterAndSort codeUnitCollation [milk; report; thesis]
                   "milk" "all" "all" "all" "title".
Proof.
  apply (@search_ignores_query_case codeUnitCollation). reflexivity.
Defined.

(** ** The counts of the list screen and of the analytics *)

Lemma length_filter_complement {A : Type} (P : A -> Prop)
    `{!forall x, Decision (P x)} (l : list A) :
  (length (filter P l) + length (filter (fun x => ~ P x) l) = length l)%nat.
Proof.
  induction l as [|x l IH]; [done|].
  rewrite !filter_cons. destruct (decide (P x)).
  - rewrite decide_False by tauto. simpl. lia.
  - rewrite decide_True by tauto. simpl. lia.
Qed.

Lemma length_filter_impl {A : Type} (P Q : A -> Prop)
    `{!forall x, Decision (P x), !forall x, Decision (Q x)} (l : list A) :
  (forall x, P x -> Q x) ->
  (length (filter P l) <= length (filter Q l))%nat.
Proof.
  intros HPQ. induction l as [|x l IH]; [done|].
  rewrite !filter_cons. destruct (decide (P x)) as [HP|HP].
  - rewrite decide_True by auto. simpl. lia.
  - destruct (decide (Q x)); simpl; lia.
Qed.

Lemma not_completed (s : Status) : s <> completed <-> s = pending.
Proof. by destruct s. Qed.

Section Counts.
Context `{!DateFns}.

Lemma isOverdue_pending (now : Z) (t : Task) :
  Is_true (isOverdue now t) -> status t <> completed.
Proof.
  unfold isOverdue. destruct (due_date t); [|done].
  rewrite andb_True, bool_decide_spec. intros [_ ->]. done.
Qed.

Lemma isOverdueTask_pending (now : Z) (t : Task) :
  Is_true (isOverdueTask now t) -> status t <> completed.
Proof.
  unfold isOverdueTask. destruct (due_date t); [|done].
  rewrite andb_True, bool_decide_spec. intros [-> _]. done.
Qed.

(** X7: in the stats of the list screen the completed and pending counts
    add up to the total, and the overdue count lies between zero and the
    pending count. *)
Theorem getTaskStats_counts (now : Z) (tasks : list Task) :
  let stats := getTaskStats now tasks in
  total stats = completed_count stats + pending_count stats
  /\ 0 <= completed_count stats <= total stats
  /\ 0 <= overdue stats <= pending_count stats.
Proof.
  simpl.
  pose proof (length_filter_complement (fun t => status t = completed) tasks).
  pose proof (length_filter_impl (fun t => Is_true (isOverdue now t))
                (fun t => status t <> completed) tasks (isOverdue_pending now)).
  lia.
Qed.

(** X8: in the analytics the overdue and the completed tasks are disjoint,
    so their counts together stay within the total, as does the count of
    today's tasks. *)
Theorem analyzeData_counts (now : Z) (tasks : list Task) :
  let a := analyzeData now tasks in
  0 <= completedTasks a
  /\ 0 <= overdueTasks a
  /\ overdueTasks a + completedTasks a <= totalTasks a
  /\ 0 <= todaysTasks a <= totalTasks a.
Proof.
  simpl.
  pose proof (length_filter_complement (fun t => status t = completed) tasks).
  pose proof (length_filter_impl (fun t => Is_true (isOverdueTask now t))
                (fun t => status t <> completed) tasks
                (isOverdueTask_pending now)).
  pose proof (length_filter (fun t => Is_true (isTodaysTask now t)) tasks).
  lia.
Qed.

(** X9: every task the analytics count as overdue is counted as overdue by
    the list screen, when the start of today is not after now; the count of
    the analytics is then at most the count of the list screen. *)
Theorem analytics_overdue_within_list_overdue (now : Z) (tasks : list Task) :
  startOfDay now <= now ->
  overdueTasks (analyzeData now tasks) <= overdue (getTaskStats now tasks).
Proof.
  intros Hstart. simpl. apply inj_le, length_filter_impl.
  intros t. unfold isOverdueTask, isOverdue, isPast.
  destruct (due_date t) as [d|]; [|done].
  rewrite !andb_True, !Is_true_true, !Z.ltb_lt. intros [? ?]. split; [lia|done].
Qed.

(** X10: a pending task due today at an instant already past carries the
    "Today" badge and is counted as overdue by the list screen; the
    analytics do not count it as overdue when the start of today is not
    after its due instant. *)
Theorem due_earlier_today_is_today_and_overdue
    (colors : Colors) (now d : Z) (t : Task) :
  due_date t = Some d ->
  status t = pending ->
  isToday now d = true ->
  d < now ->
  startOfDay now <= d ->
  (text <$> getDueDateInfo colors now (due_date t)) = Some "Today"
  /\ isOverdue now t = true
  /\ isOverdueTask now t = false.
Proof.
  intros Hdue Hstatus Htoday Hpast Hstart.
  unfold getDueDateInfo, isOverdue, isOverdueTask, isPast.
  rewrite Hdue, Htoday, Hstatus. simpl. split; [done|].
  rewrite (proj2 (Z.ltb_lt d now)) by done.
  rewrite (proj2 (Z.ltb_ge d (startOfDay now))) by done.
  done.
Qed.

End Counts.

Lemma analytics_overdue_within_list_overdue_witness :
  overdueTasks (@analyzeData utcDateFns (msPerDay + 4000) [thesis; report; milk])
  <= overdue (getTaskStats (msPerDay + 4000) [thesis; report; milk]).
Proof.
  apply (@analytics_overdue_within_list_overdue utcDateFns). vm_compute. done.
Defined.

Lemma due_earlier_today_is_today_and_overdue_witness :
  (text <$> @getDueDateInfo utcDateFns (getColors false) 9000 (due_date report))
  = Some "Today"
  /\ isOverdue 9000 report = true
  /\ @isOverdueTask utcDateFns 9000 report = false.
Proof.
  apply (@due_earlier_today_is_today_and_overdue utcDateFns
           (getColors false) 9000 5000 report);
    first [reflexivity | vm_compute; done].
Defined.

(** ** The breakdowns and the weekly chart of the analytics *)

Section Breakdown.
Context (key : Task -> string).

Lemma countInto_lookup (k k' : string) (m : gmap string Z) :
  countInto k m !! k'
  = if decide (k = k') then Some (default 0 (m !! k) + 1) else m !! k'.
Proof. unfold countInto. by rewrite lookup_insert. Qed.

Lemma chartTotal_insert (k : string) (v : Z) (m : gmap string Z) :
  m !! k = None -> chartTotal (<[k := v]> m) = chartTotal m + v.
Proof.
  intros Hk. unfold chartTotal.
  rewrite map_fold_insert_L; [done| |done]. intros. lia.
Qed.

Lemma chartTotal_countInto (k : string) (m : gmap string Z) :
  chartTotal (countInto k m) = chartTotal m + 1.
Proof.
  unfold countInto. destruct (m !! k) as [v|] eqn:Hk; simpl.
  - rewrite <-insert_delete_eq.
    rewrite chartTotal_insert by apply lookup_delete_eq.
    rewrite <-(insert_delete_id m k v Hk) at 2.
    rewrite chartTotal_insert by apply lookup_delete_eq. lia.
  - by rewrite chartTotal_insert.
Qed.

Lemma foldl_countInto_lookup (tasks : list Task) (m : gmap string Z) (k : string) :
  foldl (fun m t => countInto (key t) m) m tasks !! k
  = match length (filter (fun t => key t = k) tasks) with
    | O => m !! k
    | S n => Some (default 0 (m !! k) + Z.of_nat (S n))
    end.
Proof.
  revert m. induction tasks as [|t tasks IH]; intros m; [done|].
  simpl. rewrite IH, filter_cons, countInto_lookup.
  destruct (decide (key t = k)) as [->|Hk]; simpl.
  - destruct (length _); simpl; f_equal; lia.
  - done.
Qed.

Lemma foldl_countInto_total (tasks : list Task) (m : gmap string Z) :
  chartTotal (foldl (fun m t => countInto (key t) m) m tasks)
  = chartTotal m + Z.of_nat (length tasks).
Proof.
  revert m. induction tasks as [|t tasks IH]; intros m; simpl; [lia|].
  rewrite IH, chartTotal_countInto. lia.
Qed.

End Breakdown.

(** X11: the category breakdown has, for each key, the number of tasks of
    that category, and no entry at all for a category without tasks; its
    values add up to the number of tasks, which is the total the category
    chart divides by. *)
Theorem categoryBreakdown_counts (tasks : list Task) (k : string) :
  categoryBreakdown tasks !! k
  = match length (filter (fun t => Category_toString (category t) = k) tasks) with
    | O => None
    | S n => Some (Z.of_nat (S n))
    end
  /\ chartTotal (categoryBreakdown tasks) = Z.of_nat (length tasks).
Proof.
  split.
  - unfold categoryBreakdown. rewrite foldl_countInto_lookup.
    destruct (length _); [done|]. rewrite lookup_empty. simpl. f_equal; lia.
  - unfold categoryBreakdown. by rewrite foldl_countInto_total.
Qed.

(** X12: the priority breakdown has, for each key, the number of tasks of
    that priority, no entry for a priority without tasks, and values that
    add up to the number of tasks. *)
Theorem priorityBreakdown_counts (tasks : list Task) (k : string) :
  priorityBreakdown tasks !! k
  = match length (filter (fun t => Priority_toString (priority t) = k) tasks) with
    | O => None
    | S n => Some (Z.of_nat (S n))
    end
  /\ chartTotal (priorityBreakdown tasks) = Z.of_nat (length tasks).
Proof.
  split.
  - unfold priorityBreakdown. rewrite foldl_countInto_lookup.
    destruct (length _); [done|]. rewrite lookup_empty. simpl. f_equal; lia.
  - unfold priorityBreakdown. by rewrite foldl_countInto_total.
Qed.

Section WeeklyFacts.
Context `{!DateFns, !WeekFns}.

(** X13: the weekly progress has seven entries, one per day from six days
    ago to today; in each, the created count is at most the number of tasks
    and the completed count at most the number of completed tasks; the
    count of this week's tasks is at most the number of tasks. *)
Theorem weeklyProgress_bounds (now : Z) (tasks : list Task) :
  length (weeklyProgress now tasks) = 7%nat
  /\ 0 <= thisWeekTasks now tasks <= totalTasks (analyzeData now tasks)
  /\ Forall (fun d =>
       0 <= DayProgress.created d <= totalTasks (analyzeData now tasks)
       /\ 0 <= DayProgress.completed d <= completedTasks (analyzeData now tasks))
       (weeklyProgress now tasks).
Proof.
  split; [done|]. split.
  { unfold thisWeekTasks. simpl.
    pose proof (length_filter
      (fun t => Is_true (isThisWeek now (created_at t))) tasks). lia. }
  unfold weeklyProgress. apply Forall_fmap, Forall_forall. intros i _. simpl.
  pose proof (length_filter
    (fun t => startOfDay (daysAgo now i) <= created_at t
              /\ created_at t <= endOfDay (daysAgo now i)) tasks).
  pose proof (length_filter_impl
    (fun t => status t = completed
              /\ startOfDay (daysAgo now i) <= updated_at t
              /\ updated_at t <= endOfDay (daysAgo now i))
    (fun t => status t = completed) tasks) as H2.
  split; [lia|]. split; [lia|]. apply inj_le, H2. by intros t [? _].
Qed.

End WeeklyFacts.

(** X14: the scale of the weekly chart is at least 1, so the bar heights
    never divide by zero, and no created or completed count of the week
    exceeds it. *)
Theorem maxValue_bounds (weekly : list DayProgress.t) :
  1 <= maxValue weekly
  /\ Forall (fun d => DayProgress.created d <= maxValue weekly
                      /\ DayProgress.completed d <= maxValue weekly) weekly.
Proof.
  unfold maxValue. induction weekly as [|d weekly [IH1 IH2]]; simpl.
  - split; [lia|constructor].
  - split; [lia|]. constructor; [lia|].
    eapply Forall_impl; [exact IH2|]. simpl. lia.
Qed.

(** ** The actions of the list screen *)

Ltac run_eff :=
  unfold mbind, Eff_bind, mret, Eff_ret, fetch, fetchItem,
         Alert_alert, router_back; simpl.

Section ListActionFacts.
Context {B : Type} (serve : Request -> B -> option Response * B).
Context (serveItem : ItemRequest -> B -> option Response * B).

(** X15: when a 2xx reply to the GET carries an array, as the API
    promises, a fetch, and so a pull-to-refresh, always ends with the
    loading and refreshing flags off and sends one GET; it leaves the
    query, the selections and the quick-add text alone; and either the
    server answered 2xx, and the array it sent becomes the task list
    without any alert, or the task list stays and exactly one error alert
    is raised. *)
Theorem fetchTasks_outcome (st : ListScreen.State) (rt : Runtime B) :
  (forall r, (serve GET_tasks (backend rt)).1 = Some r -> ok r = true ->
             exists l, json r = JTasks l) ->
  let '(st', rt') := ListScreen.fetchTasks serve st rt in
  ListScreen.loading st' = false
  /\ ListScreen.refreshing st' = false
  /\ ListScreen.refreshing (TaskList.onRefresh serve st rt).1 = false
  /\ sent rt' = sent rt ++ [GET_tasks]
  /\ ListScreen.setTasks (ListScreen.tasks st) (ListScreen.settle st')
     = ListScreen.settle st
  /\ ((exists r, (serve GET_tasks (backend rt)).1 = Some r
                 /\ ok r = true
                 /\ json r = JTasks (ListScreen.tasks st')
                 /\ alerts rt' = alerts rt)
      \/ ((forall r, (serve GET_tasks (backend rt)).1 = Some r -> ok r = false)
          /\ ListScreen.tasks st' = ListScreen.tasks st
          /\ exists msg, alerts rt' = alerts rt ++ [("Error", msg)])).
Proof.
  intros Harray. unfold TaskList.onRefresh, ListScreen.fetchTasks. run_eff.
  destruct (serve GET_tasks (backend rt)) as [[r|] b'] eqn:Hserve; simpl.
  - destruct (ok r) eqn:Hok; simpl.
    + destruct (Harray r eq_refl Hok) as [l Hjson]. rewrite Hjson. simpl.
      repeat split; try done. left. by exists r.
    + repeat split; try done. right.
      split; [by intros ? [= <-]|]. split; [done|by eexists].
  - repeat split; try done. right. split; [done|]. split; [done|by eexists].
Qed.

End ListActionFacts.

Section ToggleFacts.
Context {B : Type} (serve : Request -> B -> option Response * B).

(** X16: when the server does not accept the status update (no response,
    or a status outside 2xx), the toggle leaves every cell of the screen as
    it was and raises exactly one error alert; the one request it sent is
    the status-only update. *)
Theorem toggleTaskStatus_refused
    (task : Task) (st : ListScreen.State) (rt : Runtime B) :
  (forall r, (serve (PUT_task (id task) (statusOnly (toggled task)))
                    (backend rt)).1 = Some r -> ok r = false) ->
  let '(st', rt') := ListScreen.toggleTaskStatus serve task st rt in
  st' = st
  /\ sent rt' = sent rt ++ [PUT_task (id task) (statusOnly (toggled task))]
  /\ exists msg, alerts rt' = alerts rt ++ [("Error", msg)].
Proof.
  intros Hrefused. unfold ListScreen.toggleTaskStatus. fold (toggled task).
  run_eff.
  destruct (serve _ (backend rt)) as [[r|] b'] eqn:Hserve; simpl.
  - rewrite (Hrefused r eq_refl). simpl. repeat split; by eexists.
  - repeat split; by eexists.
Qed.

(** X17: when the server accepts the status update, the toggle raises no
    alert and keeps every displayed task in its place: a task with the
    toggled id gets the new status and keeps all its other fields, and a
    task with another id is untouched. *)
Theorem toggleTaskStatus_accepted
    (task : Task) (st : ListScreen.State) (rt : Runtime B) (r : Response) :
  (serve (PUT_task (id task) (statusOnly (toggled task))) (backend rt)).1
    = Some r ->
  ok r = true ->
  let '(st', rt') := ListScreen.toggleTaskStatus serve task st rt in
  alerts rt' = alerts rt
  /\ Forall2 (fun t t' =>
       (id t <> id task -> t' = t)
       /\ (id t = id task ->
           status t' = toggled task
           /\ id t' = id t /\ title t' = title t
           /\ description t' = description t /\ due_date t' = due_date t
           /\ priority t' = priority t /\ category t' = category t
           /\ created_at t' = created_at t /\ updated_at t' = updated_at t))
       (ListScreen.tasks st) (ListScreen.tasks st').
Proof.
  intros Hserve Hok. unfold ListScreen.toggleTaskStatus. fold (toggled task).
  run_eff.
  destruct (serve _ (backend rt)) as [r' b']. simpl in Hserve.
  subst r'. rewrite Hok. simpl. split; [done|].
  induction (ListScreen.tasks st) as [|t l IH]; simpl; constructor; [|done].
  destruct (decide (id t = id task)); split; try done.
Qed.

(** X18: toggling a displayed task twice, with both updates accepted,
    restores the screen, when the tasks that share the id of the toggled
    task share its status. *)
Theorem toggleTaskStatus_twice
    (task : Task) (st : ListScreen.State) (rt : Runtime B) (r1 r2 : Response) :
  let put1 := PUT_task (id task) (statusOnly (toggled task)) in
  let again := ListScreen.withStatus task (toggled task) in
  let put2 := PUT_task (id again) (statusOnly (toggled again)) in
  (serve put1 (backend rt)).1 = Some r1 ->
  ok r1 = true ->
  (serve put2 (serve put1 (backend rt)).2).1 = Some r2 ->
  ok r2 = true ->
  (forall t, t ∈ ListScreen.tasks st -> id t = id task -> status t = status task) ->
  let '(st1, rt1) := ListScreen.toggleTaskStatus serve task st rt in
  let '(st2, rt2) := ListScreen.toggleTaskStatus serve again st1 rt1 in
  st2 = st.
Proof.
  intros put1 again put2 Hr1 Hok1 Hr2 Hok2 Hsame.
  unfold ListScreen.toggleTaskStatus.
  fold (toggled task). fold (toggled again). fold put1. fold put2. run_eff.
  destruct (serve put1 (backend rt)) as [r1' b1]. simpl in Hr1, Hr2. subst r1'.
  rewrite Hok1. simpl.
  destruct (serve put2 b1) as [r2' b2]. simpl in Hr2. subst r2'.
  rewrite Hok2. simpl.
  destruct st as [tasks q c p s k text l rf]. unfold ListScreen.setTasks.
  simpl in *. f_equal.
  rewrite map_map. rewrite <-(map_id tasks) at 2.
  apply map_ext_in. intros t Ht%list_elem_of_In.
  destruct (decide (id t = id task)) as [Hid|Hid]; simpl.
  - rewrite decide_True by done.
    specialize (Hsame t Ht Hid). destruct t. simpl in *. subst.
    unfold ListScreen.withStatus, toggled. simpl.
    f_equal. unfold toggled. by destruct (status task).
  - by rewrite decide_False.
Qed.

End ToggleFacts.

Section CreateFacts.
Context {B : Type} (serve : Request -> B -> option Response * B).

(** A fetch sends one GET and keeps the quick-add text. *)
Lemma fetchTasks_sent (st : ListScreen.State) (rt : Runtime B) :
  sent (ListScreen.fetchTasks serve st rt).2 = sent rt ++ [GET_tasks]
  /\ ListScreen.quickAddText (ListScreen.fetchTasks serve st rt).1
     = ListScreen.quickAddText st.
Proof.
  unfold ListScreen.fetchTasks. run_eff.
  destruct (serve GET_tasks (backend rt)) as [[r|] b']; simpl; [|done].
  destruct (ok r); simpl; [|done]. by destruct (json r).
Qed.

(** For a title that is not blank the add-task screen sends one POST, of
    the trimmed title and description. *)
Lemma createTask_sent (st : AddTaskScreen.State) (rt : Runtime B) :
  blank (AddTaskScreen.title st) = false ->
  sent (AddTaskScreen.createTask serve st rt).2
  = sent rt ++ [POST_tasks {|
      TaskCreate.title := JS.trim (AddTaskScreen.title st);
      TaskCreate.description := Some (JS.trim (AddTaskScreen.description st));
      TaskCreate.priority := Some (AddTaskScreen.priority st);
      TaskCreate.category := Some (AddTaskScreen.category st);
      TaskCreate.due_date := AddTaskScreen.dueDate st |}].
Proof.
  intros Hblank. unfold AddTaskScreen.createTask.
  rewrite truthy_trim, Hblank. simpl. run_eff.
  destruct (serve _ (backend rt)) as [[r|] b']; simpl; [|done].
  destruct (ok r); simpl; [done|].
  by destruct (json r) as [| |[detail|]].
Qed.

(** X19: for a text that is not blank the quick-add bar posts once.  If
    the server accepts, the text is cleared and the list is fetched again
    (a GET follows the POST); otherwise the text and every other cell stay
    as they were, nothing else is sent, and exactly one error alert is
    raised. *)
Theorem quickAddTask_outcome (st : ListScreen.State) (rt : Runtime B) :
  blank (ListScreen.quickAddText st) = false ->
  let post := POST_tasks {|
    TaskCreate.title := JS.trim (ListScreen.quickAddText st);
    TaskCreate.description := None;
    TaskCreate.priority := Some medium;
    TaskCreate.category := Some personal;
    TaskCreate.due_date := None |} in
  let '(st', rt') := ListScreen.quickAddTask serve st rt in
  match (serve post (backend rt)).1 with
  | Some r =>
      if ok r then
        ListScreen.quickAddText st' = ""
        /\ sent rt' = sent rt ++ [post; GET_tasks]
      else
        st' = st /\ sent rt' = sent rt ++ [post]
        /\ alerts rt' = alerts rt ++ [("Error", "Failed to create task")]
  | None =>
      st' = st /\ sent rt' = sent rt ++ [post]
      /\ alerts rt' = alerts rt ++ [("Error", "Network error occurred")]
  end.
Proof.
  intros Hblank post. unfold ListScreen.quickAddTask.
  rewrite truthy_trim, Hblank. simpl. fold post. run_eff.
  destruct (serve post (backend rt)) as [[r|] b'] eqn:Hserve; simpl; [|done].
  destruct (ok r) eqn:Hok; simpl; [|done].
  pose proof (fetchTasks_sent (ListScreen.setQuickAddText "" st)
    (mkRuntime b' (sent rt ++ [post]) (alerts rt) (navigatedBack rt)))
    as [Hsent Htext].
  destruct (ListScreen.fetchTasks serve _ _) as [st' rt'].
  simpl in Hsent, Htext. split; [done|by rewrite Hsent, <-app_assoc].
Qed.

(** X20: for a title that is not blank the add-task screen sends exactly
    one request, the POST of the trimmed title and description with the
    chosen priority, category and due date; it ends with the loading flag
    off and the form as typed; and it goes back, without an alert, exactly
    when the server accepts, raising one error alert otherwise. *)
Theorem createTask_outcome (st : AddTaskScreen.State) (rt : Runtime B) :
  blank (AddTaskScreen.title st) = false ->
  let post := POST_tasks {|
    TaskCreate.title := JS.trim (AddTaskScreen.title st);
    TaskCreate.description := Some (JS.trim (AddTaskScreen.description st));
    TaskCreate.priority := Some (AddTaskScreen.priority st);
    TaskCreate.category := Some (AddTaskScreen.category st);
    TaskCreate.due_date := AddTaskScreen.dueDate st |} in
  let '(st', rt') := AddTaskScreen.createTask serve st rt in
  sent rt' = sent rt ++ [post]
  /\ st' = AddTaskScreen.setLoading false st
  /\ ((exists r, (serve post (backend rt)).1 = Some r /\ ok r = true
                 /\ navigatedBack rt' = S (navigatedBack rt)
                 /\ alerts rt' = alerts rt)
      \/ ((forall r, (serve post (backend rt)).1 = Some r -> ok r = false)
          /\ navigatedBack rt' = navigatedBack rt
          /\ exists msg, alerts rt' = alerts rt ++ [("Error", msg)])).
Proof.
  intros Hblank post. unfold AddTaskScreen.createTask.
  rewrite truthy_trim, Hblank. simpl. fold post. run_eff.
  destruct (serve post (backend rt)) as [[r|] b'] eqn:Hserve; simpl.
  - destruct (ok r) eqn:Hok; simpl.
    + repeat split; try done. left. by exists r.
    + destruct (json r) as [| |[detail|]]; simpl;
        (split; [done|]; split; [by destruct st|]; right;
         split; [by intros ? [= <-]|]; split; [done|by eexists]).
  - split; [done|]. split; [by destruct st|]. right.
    split; [done|]. split; [done|by eexists].
Qed.

End CreateFacts.

Section DeleteFacts.
Context {B : Type} (serveItem : ItemRequest -> B -> option Response * B).

(** X21: deleting asks for confirmation first.  Whatever the answer and
    the server do, the tasks with another id stay displayed, in their
    order.  On Cancel nothing reaches the backend and the screen is
    unchanged.  On Delete with a 2xx answer no task with the deleted id is
    displayed any more; with any other outcome the list is unchanged and
    one error alert follows the confirmation. *)
Theorem deleteTask_outcome
    (taskId : string) (choice : DeleteChoice)
    (st : ListScreen.State) (rt : Runtime B) :
  let '(st', rt') := TaskList.deleteTask serveItem taskId choice st rt in
  let confirmation :=
    ("Delete Task", "Are you sure you want to delete this task?") in
  filter (fun t => id t <> taskId) (ListScreen.tasks st')
    = filter (fun t => id t <> taskId) (ListScreen.tasks st)
  /\ match choice with
     | CancelButton =>
         st' = st /\ backend rt' = backend rt
         /\ alerts rt' = alerts rt ++ [confirmation]
     | DeleteButton =>
         match (serveItem (DELETE_task taskId) (backend rt)).1 with
         | Some r =>
             if ok r then
               (forall t, t ∈ ListScreen.tasks st' -> id t <> taskId)
               /\ alerts rt' = alerts rt ++ [confirmation]
             else
               st' = st
               /\ alerts rt'
                  = alerts rt ++ [confirmation; ("Error", "Failed to delete task")]
         | None =>
             st' = st
             /\ alerts rt'
                = alerts rt ++ [confirmation; ("Error", "Network error occurred")]
         end
     end.
Proof.
  unfold TaskList.deleteTask. run_eff.
  destruct choice; simpl; [done|].
  destruct (serveItem _ (backend rt)) as [[r|] b'] eqn:Hserve; simpl.
  - destruct (ok r); simpl.
    + split; [|split; [|done]].
      * rewrite list_filter_filter. apply list_filter_iff. tauto.
      * intros t Ht%list_elem_of_filter. tauto.
    + by rewrite <-app_assoc.
  - by rewrite <-app_assoc.
Qed.

End DeleteFacts.

(** ** The edit screen *)

Section EditFacts.
Context {B : Type} (serve : Request -> B -> option Response * B).
Context (serveItem : ItemRequest -> B -> option Response * B).

(** X22: with a blank title the edit screen sends no update: the backend,
    the requests sent and the form are as before, and one validation alert
    is raised. *)
Theorem updateTask_blank_title
    (i : string) (st : EditTaskScreen.State) (rt : Runtime B) :
  blank (EditTaskScreen.title st) = true ->
  EditTaskScreen.updateTask serve i st rt
  = (st, mkRuntime (backend rt) (sent rt)
           (alerts rt ++ [("Validation Error", "Please enter a task title")])
           (navigatedBack rt)).
Proof.
  intros Hblank. unfold EditTaskScreen.updateTask.
  by rewrite truthy_trim, Hblank.
Qed.

(** X23: loading a task into the edit screen and saving it unedited sends
    one update for the same id that carries the trimmed title, the trimmed
    description (the empty string when the task has none), the priority,
    category and status of the task, and no due date. *)
Theorem load_then_save_sends_task_fields
    (i : string) (t : Task) (r : Response)
    (st : EditTaskScreen.State) (rt : Runtime B) :
  (serveItem (GET_task i) (backend rt)).1 = Some r ->
  ok r = true ->
  json r = JTask t ->
  blank (title t) = false ->
  let '(st1, rt1) := EditTaskScreen.fetchTask serveItem i st rt in
  let '(st2, rt2) := EditTaskScreen.updateTask serve i st1 rt1 in
  EditTaskScreen.loading st1 = false
  /\ alerts rt1 = alerts rt
  /\ sent rt2 = sent rt ++ [PUT_task i {|
       TaskUpdate.title := Some (JS.trim (title t));
       TaskUpdate.description := Some (JS.trim (default "" (description t)));
       TaskUpdate.due_date := None;
       TaskUpdate.priority := Some (priority t);
       TaskUpdate.category := Some (category t);
       TaskUpdate.status := Some (status t) |}].
Proof.
  intros Hserve Hok Hjson Hblank.
  unfold EditTaskScreen.fetchTask. run_eff.
  destruct (serveItem _ (backend rt)) as [r' b']. simpl in Hserve. subst r'.
  rewrite Hok, Hjson. simpl.
  unfold EditTaskScreen.updateTask. destruct t as [ti tt td tdue tp tc ts tca tua].
  simpl in *. rewrite truthy_trim, Hblank. simpl. run_eff.
  assert ((match td with
           | Some d => if JS.truthy d then d else ""
           | None => ""
           end) = default "" td) as ->.
  { destruct td as [[|]|]; done. }
  destruct (serve _ b') as [[r2|] b2]; simpl.
  - destruct (ok r2); simpl; [done|].
    destruct (json r2) as [| |[detail|]]; done.
  - done.
Qed.

(** X24: when the task cannot be loaded (no response, or a status outside
    2xx) the edit screen raises one alert, goes back once, and ends with
    the loading flag off and the form untouched. *)
Theorem fetchTask_failure
    (i : string) (st : EditTaskScreen.State) (rt : Runtime B) :
  (forall r, (serveItem (GET_task i) (backend rt)).1 = Some r -> ok r = false) ->
  let '(st', rt') := EditTaskScreen.fetchTask serveItem i st rt in
  st' = EditTaskScreen.setLoading false st
  /\ navigatedBack rt' = S (navigatedBack rt)
  /\ exists msg, alerts rt' = alerts rt ++ [("Error", msg)].
Proof.
  intros Hfail. unfold EditTaskScreen.fetchTask. run_eff.
  destruct (serveItem _ (backend rt)) as [[r|] b']; simpl.
  - rewrite (Hfail r eq_refl). simpl. repeat split; by eexists.
  - repeat split; by eexists.
Qed.

End EditFacts.

(** ** The theme preference *)

(** X25: while the storage works, a screen opened after a theme toggle
    loads the theme the toggle chose, and a second toggle brings back the
    first theme, in memory and in the storage. *)
Theorem theme_round_trip (isDarkMode : bool) (s : Theme.AsyncStorage) :
  Theme.available s = true ->
  let '(theme1, s1) := Theme.toggleTheme isDarkMode s in
  let '(theme2, s2) := Theme.toggleTheme theme1 s1 in
  theme1 = negb isDarkMode
  /\ Theme.loadThemePreference false s1 = theme1
  /\ theme2 = isDarkMode
  /\ Theme.loadThemePreference false s2 = isDarkMode
  /\ Theme.items s2 !! "theme" = Some (if isDarkMode then "dark" else "light").
Proof.
  intros Havail. unfold Theme.toggleTheme, Theme.setItem, Theme.loadThemePreference,
    Theme.getItem.
  rewrite Havail. simpl.
  destruct isDarkMode; simpl; rewrite ?lookup_insert_eq; done.
Qed.

(** X26: while the storage rejects its calls, a toggle still switches the
    theme of the open screen but stores nothing, and loading the preference
    leaves the theme of a screen as it is. *)
Theorem theme_storage_unavailable
    (isDarkMode b : bool) (s : Theme.AsyncStorage) :
  Theme.available s = false ->
  Theme.toggleTheme isDarkMode s = (negb isDarkMode, s)
  /\ Theme.loadThemePreference b s = b.
Proof.
  intros Havail. unfold Theme.toggleTheme, Theme.setItem,
    Theme.loadThemePreference, Theme.getItem.
  by rewrite Havail.
Qed.

(** Loading the preference never turns a dark screen light. *)
Lemma loadThemePreference_keeps_dark (s : Theme.AsyncStorage) :
  Theme.loadThemePreference true s = true.
Proof.
  unfold Theme.loadThemePreference.
  destruct (Theme.getItem "theme" s); [|done]. by case_decide.
Qed.

(** ** The actions on examples *)

Lemma toggleTaskStatus_refused_witness :
  let st := ListScreen.setTasks [milk; report] ListScreen.initial in
  let '(st', rt') := ListScreen.toggleTaskStatus refuseAll milk st idle in
  st' = st
  /\ sent rt' = sent idle ++ [PUT_task (id milk) (statusOnly (toggled milk))]
  /\ exists msg, alerts rt' = alerts idle ++ [("Error", msg)].
Proof.
  intros st.
  apply (toggleTaskStatus_refused refuseAll milk st idle).
  by intros r [= <-].
Defined.

Lemma toggleTaskStatus_accepted_witness :
  let st := ListScreen.setTasks [milk; report] ListScreen.initial in
  (ListScreen.toggleTaskStatus acceptAll milk st idle).1
  = ListScreen.setTasks [ListScreen.withStatus milk completed; report] st
  /\ let '(st', rt') := ListScreen.toggleTaskStatus acceptAll milk st idle in
     alerts rt' = alerts idle
     /\ Forall2 (fun t t' =>
          (id t <> id milk -> t' = t)
          /\ (id t = id milk ->
              status t' = toggled milk
              /\ id t' = id t /\ title t' = title t
              /\ description t' = description t /\ due_date t' = due_date t
              /\ priority t' = priority t /\ category t' = category t
              /\ created_at t' = created_at t /\ updated_at t' = updated_at t))
          (ListScreen.tasks st) (ListScreen.tasks st').
Proof.
  intros st. split; [reflexivity|].
  apply (toggleTaskStatus_accepted acceptAll milk st idle
           {| status_code := 200; json := JError None |});
    reflexivity.
Defined.

Lemma toggleTaskStatus_twice_witness :
  let st := ListScreen.setTasks [milk; report] ListScreen.initial in
  let rt := mkRuntime (TaskService.mkServer {[ "1" := milk; "2" := report ]} 7000)
                      [] [] 0%nat in
  let '(st1, rt1) := ListScreen.toggleTaskStatus TaskService.serve milk st rt in
  let '(st2, rt2) :=
    ListScreen.toggleTaskStatus TaskService.serve
      (ListScreen.withStatus milk (toggled milk)) st1 rt1 in
  st2 = st.
Proof.
  intros st rt.
  apply (toggleTaskStatus_twice TaskService.serve milk st rt
           (TaskService.respond 200
              (TaskService.Ok (TaskService.merge 7000 (statusOnly completed) milk)))
           (TaskService.respond 200
              (TaskService.Ok
                 (TaskService.merge 7000 (statusOnly pending)
                    (TaskService.merge 7000 (statusOnly completed) milk))))).
  - reflexivity.
  - reflexivity.
  - reflexivity.
  - reflexivity.
  - intros t Ht Hid. simpl in Ht.
    apply elem_of_cons in Ht as [->|Ht]; [done|].
    apply list_elem_of_singleton in Ht as ->. done.
Defined.

Lemma fetchTasks_outcome_witness :
  let rt := mkRuntime (run [(1000, POST_tasks (titleOnly "Buy milk"))] (started 0))
                      [] [] 0%nat in
  let '(st', rt') := ListScreen.fetchTasks TaskService.serve ListScreen.initial rt in
  ListScreen.loading st' = false
  /\ sent rt' = [GET_tasks]
  /\ alerts rt' = [].
Proof.
  intros rt.
  pose proof (fetchTasks_outcome TaskService.serve ListScreen.initial rt) as H.
  destruct (ListScreen.fetchTasks TaskService.serve ListScreen.initial rt)
    as [st' rt'] eqn:Hrun.
  destruct H as (Hloading & _ & _ & Hsent & _ & [(r & _ & _ & _ & Halerts)|(Hrefused & _)]).
  - intros r [= <-] _. by eexists.
  - by repeat split.
  - specialize (Hrefused _ eq_refl). done.
Defined.

Lemma quickAddTask_outcome_witness :
  let st := ListScreen.setQuickAddText " Call Ana " ListScreen.initial in
  (ListScreen.quickAddTask refuseAll st idle).1 = st
  /\ ListScreen.quickAddText (ListScreen.quickAddTask acceptAll st idle).1 = "".
Proof.
  intros st.
  pose proof (quickAddTask_outcome refuseAll st idle eq_refl) as Hrefused.
  pose proof (quickAddTask_outcome acceptAll st idle eq_refl) as Haccepted.
  destruct (ListScreen.quickAddTask refuseAll st idle) as [st1 rt1].
  destruct (ListScreen.quickAddTask acceptAll st idle) as [st2 rt2].
  simpl in *. split; [apply Hrefused|apply Haccepted].
Defined.

Lemma createTask_outcome_witness :
  let st := AddTaskScreen.mkState " Pay rent " " by Friday " high work false
              (Some 5000) false in
  sent (AddTaskScreen.createTask acceptAll st idle).2
  = [POST_tasks {|
       TaskCreate.title := "Pay rent";
       TaskCreate.description := Some "by Friday";
       TaskCreate.priority := Some high;
       TaskCreate.category := Some work;
       TaskCreate.due_date := Some 5000 |}].
Proof.
  intros st.
  pose proof (createTask_outcome acceptAll st idle eq_refl) as H.
  destruct (AddTaskScreen.createTask acceptAll st idle) as [st' rt'].
  simpl in *. apply H.
Defined.

Lemma updateTask_blank_title_witness :
  let st := EditTaskScreen.mkState (Some milk) "   " "" medium personal pending
              false false in
  sent (EditTaskScreen.updateTask acceptAll "1" st idle).2 = [].
Proof.
  intros st.
  by rewrite (updateTask_blank_title acceptAll "1" st idle eq_refl).
Defined.

Lemma load_then_save_sends_task_fields_witness :
  let '(st1, rt1) :=
    EditTaskScreen.fetchTask (itemFound milk) "1" EditTaskScreen.initial idle in
  let '(st2, rt2) := EditTaskScreen.updateTask acceptAll "1" st1 rt1 in
  sent rt2 = [PUT_task "1" {|
    TaskUpdate.title := Some "Buy milk";
    TaskUpdate.description := Some "";
    TaskUpdate.due_date := None;
    TaskUpdate.priority := Some medium;
    TaskUpdate.category := Some personal;
    TaskUpdate.status := Some pending |}].
Proof.
  pose proof (load_then_save_sends_task_fields acceptAll (itemFound milk)
                "1" milk {| status_code := 200; json := JTask milk |}
                EditTaskScreen.initial idle eq_refl eq_refl eq_refl eq_refl) as H.
  destruct (EditTaskScreen.fetchTask _ _ _ _) as [st1 rt1].
  destruct (EditTaskScreen.updateTask _ _ _ _) as [st2 rt2].
  apply H.
Defined.

Lemma fetchTask_failure_witness :
  let '(st', rt') :=
    EditTaskScreen.fetchTask itemMissing "9" EditTaskScreen.initial idle in
  st' = EditTaskScreen.setLoading false EditTaskScreen.initial
  /\ navigatedBack rt' = S (navigatedBack idle)
  /\ exists msg, alerts rt' = alerts idle ++ [("Error", msg)].
Proof.
  apply (fetchTask_failure itemMissing "9" EditTaskScreen.initial idle).
  by intros r [= <-].
Defined.

Lemma theme_round_trip_witness :
  let '(theme1, s1) := Theme.toggleTheme false (Theme.mkStorage ∅ true) in
  let '(theme2, s2) := Theme.toggleTheme theme1 s1 in
  theme1 = negb false
  /\ Theme.loadThemePreference false s1 = theme1
  /\ theme2 = false
  /\ Theme.loadThemePreference false s2 = false
  /\ Theme.items s2 !! "theme" = Some "light".
Proof.
  apply (theme_round_trip false (Theme.mkStorage ∅ true)). reflexivity.
Defined.

Lemma theme_storage_unavailable_witness :
  Theme.toggleTheme true (Theme.mkStorage {[ "theme" := "dark" ]} false)
  = (false, Theme.mkStorage {[ "theme" := "dark" ]} false)
  /\ Theme.loadThemePreference false
       (Theme.mkStorage {[ "theme" := "dark" ]} false) = false.
Proof.
  apply (theme_storage_unavailable true false
           (Theme.mkStorage {[ "theme" := "dark" ]} false)).
  reflexivity.
Defined.

(** ** The title that is sent *)

Lemma trimStart_head (s : string) (c : ascii) (rest : string) :
  JS.trimStart s = String c rest -> JS.isWhiteSpace c = false.
Proof.
  induction s as [|a s IH]; [done|]. simpl.
  destruct (JS.isWhiteSpace a) eqn:Ha; [done|]. by intros [= <- _].
Qed.

Lemma trimEnd_head (s : string) (c : ascii) (rest : string) :
  JS.trimEnd s = String c rest -> exists rest', s = String c rest'.
Proof.
  destruct s as [|a s]; [done|]. simpl.
  destruct (JS.trimEnd s); [destruct (JS.isWhiteSpace a)|];
    intros [= <- _]; by eexists.
Qed.

Lemma trimEnd_last (s pre : string) (c : ascii) :
  JS.trimEnd s = pre +:+ String c "" -> JS.isWhiteSpace c = false.
Proof.
  revert pre. induction s as [|a s IH]; intros pre.
  - by destruct pre.
  - simpl. destruct (JS.trimEnd s) as [|b r] eqn:Hs.
    + destruct (JS.isWhiteSpace a) eqn:Ha; [by destruct pre|].
      destruct pre as [|p [|??]]; [|done..]. by intros [= <-].
    + destruct pre as [|p pre]; [done|].
      rewrite append_cons. intros [= _ Hr]. by eapply IH.
Qed.

Lemma append_empty_r (s : string) : s +:+ "" = s.
Proof.
  induction s as [|a s IH]; [done|]. rewrite append_cons. by f_equal.
Qed.

Lemma trimStart_occurs (s : string) : occursIn (JS.trimStart s) s.
Proof.
  induction s as [|a s (pre & post & IH)]; [by exists "", ""|]. simpl.
  destruct (JS.isWhiteSpace a).
  - exists (String a pre), post. rewrite append_cons. by f_equal.
  - exists "", "". change (String a s = String a s +:+ "").
    by rewrite append_empty_r.
Qed.

Lemma trimEnd_prefix (s : string) : exists post, s = JS.trimEnd s +:+ post.
Proof.
  induction s as [|a s [post IH]]; [by exists ""|]. simpl.
  destruct (JS.trimEnd s) as [|b r] eqn:Hs.
  - destruct (JS.isWhiteSpace a).
    + by exists (String a s).
    + exists s. by rewrite append_cons.
  - exists post. rewrite append_cons. by f_equal.
Qed.

Lemma append_assoc (a b c : string) : (a +:+ b) +:+ c = a +:+ b +:+ c.
Proof.
  induction a as [|x a IH]; [done|]. rewrite !append_cons. by f_equal.
Qed.

Lemma trim_occurs (s : string) : occursIn (JS.trim s) s.
Proof.
  unfold JS.trim.
  destruct (trimStart_occurs s) as (pre & post & Hs).
  destruct (trimEnd_prefix (JS.trimStart s)) as [post' Ht].
  exists pre, (post' +:+ post). rewrite Hs at 1. rewrite Ht at 1.
  by rewrite append_assoc.
Qed.

Section TitleFacts.
Context {B : Type} (serve : Request -> B -> option Response * B).

(** X27: the title the add-task screen sends, for a title typed that is
    not blank, is a non-empty piece of the text typed that neither starts
    nor ends with white space. *)
Theorem createTask_sends_trimmed_title
    (st : AddTaskScreen.State) (rt : Runtime B) :
  blank (AddTaskScreen.title st) = false ->
  exists body,
    sent (AddTaskScreen.createTask serve st rt).2 = sent rt ++ [POST_tasks body]
    /\ TaskCreate.title body <> ""
    /\ occursIn (TaskCreate.title body) (AddTaskScreen.title st)
    /\ (forall c rest,
          TaskCreate.title body = String c rest -> JS.isWhiteSpace c = false)
    /\ (forall pre c,
          TaskCreate.title body = pre +:+ String c "" ->
          JS.isWhiteSpace c = false).
Proof.
  intros Hblank.
  eexists. split; [by apply createTask_sent|]. simpl.
  split; [|split; [apply trim_occurs|split]].
  - intros Hempty%trim_empty_iff. congruence.
  - intros c rest Hc. unfold JS.trim in Hc.
    destruct (trimEnd_head _ _ _ Hc) as [rest' Hstart].
    by eapply trimStart_head.
  - intros pre c Hc. by eapply trimEnd_last.
Qed.

End TitleFacts.

Section ToggleUnderFilter.
Context {B : Type} (serve : Request -> B -> option Response * B).

(** X28: ticking a task while the status filter shows the status it had:
    once the server accepts, no task with its id is displayed any more, and
    the same tasks with other ids are displayed as before. *)
Theorem toggle_under_status_filter `{!Collation}
    (task : Task) (st : ListScreen.State) (rt : Runtime B) (r : Response) :
  (serve (PUT_task (id task) (statusOnly (toggled task))) (backend rt)).1
    = Some r ->
  ok r = true ->
  ListScreen.selectedStatus st = Status_toString (status task) ->
  let st' := (ListScreen.toggleTaskStatus serve task st rt).1 in
  (forall t, t ∈ ListScreen.filteredTasks st' -> id t <> id task)
  /\ filter (fun t => id t <> id task) (ListScreen.filteredTasks st')
     ≡ₚ filter (fun t => id t <> id task) (ListScreen.filteredTasks st).
Proof.
  intros Hserve Hok Hsel st'.
  assert (ListScreen.tasks st'
          = map (fun x => if decide (id x = id task)
                          then ListScreen.withStatus x (toggled task) else x)
                (ListScreen.tasks st)
          /\ ListScreen.searchQuery st' = ListScreen.searchQuery st
          /\ ListScreen.selectedCategory st' = ListScreen.selectedCategory st
          /\ ListScreen.selectedPriority st' = ListScreen.selectedPriority st
          /\ ListScreen.selectedStatus st' = ListScreen.selectedStatus st
          /\ ListScreen.sortBy st' = ListScreen.sortBy st)
    as (Htasks & Hq & Hc & Hp & Hs & Hk).
  { subst st'. unfold ListScreen.toggleTaskStatus. fold (toggled task). run_eff.
    destruct (serve _ (backend rt)) as [r' b']. simpl in Hserve. subst r'.
    by rewrite Hok. }
  unfold ListScreen.filteredTasks. rewrite Hq, Hc, Hp, Hs, Hk, Htasks, Hsel.
  clear Htasks Hq Hc Hp Hs Hk Hsel.
  set (f := fun x => if decide (id x = id task)
                     then ListScreen.withStatus x (toggled task) else x).
  assert (forall t, id (f t) = id t) as Hfid.
  { intros t. unfold f. by case_decide. }
  split.
  - intros t. rewrite filterAndSort_passes, elem_of_sort, list_elem_of_filter.
    intros [(_ & _ & _ & Hst) Ht] Hid.
    apply list_elem_of_fmap in Ht as (t0 & -> & _).
    rewrite Hfid in Hid. unfold f in Hst. rewrite decide_True in Hst by done.
    simpl in Hst. unfold toggled in Hst.
    destruct (status task); simpl in Hst;
      pose proof (Hst ltac:(done)) as Heq; done.
  - rewrite !filterAndSort_passes, !sort_Permutation, !list_filter_filter.
    induction (ListScreen.tasks st) as [|t l IH]; [done|].
    rewrite fmap_cons, !filter_cons.
    destruct (decide (id t = id task)) as [Hid|Hid].
    + rewrite !decide_False; [done|intros [? _]; done|].
      intros [Hne _]. by rewrite Hfid in Hne.
    + assert (f t = t) as -> by (unfold f; by rewrite decide_False).
      destruct (decide _); [by f_equiv|done].
Qed.

End ToggleUnderFilter.

Lemma createTask_sends_trimmed_title_witness :
  let st := AddTaskScreen.mkState "  Pay rent " "" medium personal false None false in
  exists body,
    sent (AddTaskScreen.createTask refuseAll st idle).2 = sent idle ++ [POST_tasks body]
    /\ TaskCreate.title body <> ""
    /\ occursIn (TaskCreate.title body) (AddTaskScreen.title st)
    /\ (forall c rest,
          TaskCreate.title body = String c rest -> JS.isWhiteSpace c = false)
    /\ (forall pre c,
          TaskCreate.title body = pre +:+ String c "" ->
          JS.isWhiteSpace c = false).
Proof.
  intros st. apply (createTask_sends_trimmed_title refuseAll st idle).
  reflexivity.
Defined.

Lemma toggle_under_status_filter_witness :
  let st := ListScreen.mkState [milk; report; thesis] "" "all" "all" "pending"
              "created_at" "" false false in
  let st' := (ListScreen.toggleTaskStatus acceptAll milk st idle).1 in
  (forall t, t ∈ @ListScreen.filteredTasks codeUnitCollation st' -> id t <> id milk)
  /\ filter (fun t => id t <> id milk) (@ListScreen.filteredTasks codeUnitCollation st')
     ≡ₚ filter (fun t => id t <> id milk) (@ListScreen.filteredTasks codeUnitCollation st).
Proof.
  intros st.
  apply (@toggle_under_status_filter unit acceptAll codeUnitCollation milk st idle
           {| status_code := 200; json := JError None |});
    reflexivity.
Defined.
